(** * Opening-range-breakout trading engine: model and properties

    A shallow embedding of the decision and trade-lifecycle logic of
    [enhanced_orb_stock_bot.py] (class [EnhancedORBStockTradingBot]) and of
    the parts of [orb_stock_bot.py] (class [ORBStockTradingBot]) that differ
    from it.

    Number model.  Python [float] values (prices, volumes, P&L, ratios) are
    exact rationals [Q]; binary64 rounding is outside the model.  A pandas
    aggregate that can be NaN is a [pyfloat], with [None] for NaN.  Python
    [int] values (share counts, counters) are [Z].  [int(n * 0.5)] and
    [int(n * 0.25)] on an [int] [n] are truncations toward zero of n/2 and
    n/4 (both products are exact in binary64 for |n| < 2^53). *)

From Stdlib Require Import ZArith QArith Qabs Qminmax Qround Lqa Lia.
From Stdlib Require Import String Ascii Bool DecimalString List.
Import ListNotations.

Local Open Scope Q_scope.

(* ================================================================== *)
(** ** Numbers *)

Definition Qlt_bool (x y : Q) : bool := negb (Qle_bool y x).

(** [None] is NaN: every comparison with it is false, and it propagates
    through division. *)
Definition pyfloat := option Q.

Definition fdiv (a b : pyfloat) : pyfloat :=
  match a, b with
  | Some x, Some y => Some (x / y)
  | _, _ => None
  end.

Definition fgt (a : pyfloat) (y : Q) : bool :=
  match a with Some x => Qlt_bool y x | None => false end.

Definition fge (a : pyfloat) (y : Q) : bool :=
  match a with Some x => Qle_bool y x | None => false end.

(** [int(n * 0.5)] and [int(n * 0.25)] for a Python int [n]. *)
Definition int_mul_half (n : Z) : Z := Z.quot n 2.
Definition int_mul_quarter (n : Z) : Z := Z.quot n 4.

(** The floor that the specification speaks of. *)
Definition floor_mul (n : Z) (q : Q) : Z := Qfloor (inject_Z n * q).

(* ================================================================== *)
(** ** Bar series (the pandas DataFrame returned by [get_stock_data]) *)

Record Bar := mkBar {
  bar_Open : Q;
  bar_High : Q;
  bar_Low : Q;
  bar_Close : Q;
  bar_Volume : Q
}.

(** [get_stock_data] returns the frame when it is not empty and [None]
    otherwise (also on a fetch error). *)
Definition get_stock_data (fetched : option (list Bar)) : option (list Bar) :=
  match fetched with
  | Some (b :: bs) => Some (b :: bs)
  | _ => None
  end.

Definition df_head {A} (n : nat) (l : list A) : list A := firstn n l.
Definition df_tail {A} (n : nat) (l : list A) : list A :=
  skipn (length l - n) l.

(** [series.iloc[-1]]: raises IndexError on an empty series. *)
Definition iloc_last {A} (l : list A) : option A :=
  match rev l with
  | [] => None
  | x :: _ => Some x
  end.

Definition Qsum (l : list Q) : Q := fold_right Qplus 0 l.

(** [series.mean()]: NaN on an empty series. *)
Definition series_mean (l : list Q) : pyfloat :=
  match l with
  | [] => None
  | _ :: _ => Some (Qsum l / inject_Z (Z.of_nat (length l)))
  end.

(** [series.max()] and [series.min()]: NaN on an empty series. *)
Definition series_max (l : list Q) : pyfloat :=
  match l with
  | [] => None
  | x :: xs => Some (fold_left Qmax xs x)
  end.

Definition series_min (l : list Q) : pyfloat :=
  match l with
  | [] => None
  | x :: xs => Some (fold_left Qmin xs x)
  end.

(* ================================================================== *)
(** ** Opening range ([calculate_opening_range], both bots) *)

Record OpeningRange := mkOpeningRange {
  or_symbol : string;
  orh : Q;
  orl : Q;
  range_size : Q;
  volume_avg : pyfloat;
  or_timestamp : string
}.

(** [calculate_volume_average] of the basic bot.  The enhanced bot has the
    same expression inline without the empty case, which the non-empty frame
    it is applied to never reaches. *)
Definition calculate_volume_average (data : list Bar) : pyfloat :=
  if (20 <=? length data)%nat
  then series_mean (df_tail 20 (map bar_Volume data))
  else match data with
       | [] => Some 0
       | _ => series_mean (map bar_Volume data)
       end.

(** The range record built from today's 5-minute bars; [None] is the
    function's [return None].  [float(orh)] of a NaN would go on with NaN;
    that cannot happen, the window of a non-empty frame is not empty, and
    the model returns [None] there as for the empty window. *)
Definition opening_range_of (symbol now : string) (fetched : option (list Bar))
  : option OpeningRange :=
  match get_stock_data fetched with
  | None => None
  | Some data =>
      let opening_data := df_head 6 data in
      match series_max (map bar_High opening_data),
            series_min (map bar_Low opening_data) with
      | Some h, Some l =>
          Some {| or_symbol := symbol;
                  orh := h;
                  orl := l;
                  range_size := h - l;
                  volume_avg := calculate_volume_average data;
                  or_timestamp := now |}
      | _, _ => None
      end
  end.

(* ================================================================== *)
(** ** Volume analysis ([enhanced_volume_analysis]) *)

Record VolumeAnalysis := mkVolumeAnalysis {
  volume_surge : pyfloat;
  volume_trend : pyfloat;
  is_strong_volume : bool;
  avg_volume_20 : pyfloat;
  current_volume : Q
}.

(** How the function was left: by its [return] or through its [except]. *)
Inductive Outcome (A : Type) :=
| Returned (a : A)
| Excepted (a : A).
Arguments Returned {A} a.
Arguments Excepted {A} a.

Definition outcome_value {A} (o : Outcome A) : A :=
  match o with Returned a | Excepted a => a end.

(** Leaving after a message that reads an optional key of a dictionary:
    by [return] when the key is there, through the handler (KeyError)
    when it is not. *)
Definition returned_if {A B} (key : option B) (a : A) : Outcome A :=
  match key with
  | Some _ => Returned a
  | None => Excepted a
  end.

Definition volume_fallback : VolumeAnalysis :=
  {| volume_surge := Some 1;
     volume_trend := Some 1;
     is_strong_volume := false;
     avg_volume_20 := Some 0;
     current_volume := 0 |}.

Definition enhanced_volume_analysis (data : list Bar) : Outcome VolumeAnalysis :=
  let volume := map bar_Volume data in
  match iloc_last volume with
  | None => Excepted volume_fallback
  | Some cur =>
      let avg20 := series_mean (df_tail 20 volume) in
      let surge := if fgt avg20 0 then fdiv (Some cur) avg20 else Some 1 in
      let trend :=
        if fgt (series_mean (df_tail 20 volume)) 0
        then fdiv (series_mean (df_tail 5 volume))
                  (series_mean (df_tail 20 volume))
        else Some 1 in
      Returned {| volume_surge := surge;
                  volume_trend := trend;
                  is_strong_volume := fge surge 2 && fge trend 1.2;
                  avg_volume_20 := avg20;
                  current_volume := cur |}
  end.

(* ================================================================== *)
(** ** Session resolver ([get_optimal_trading_sessions]) *)

(** The wall clock in Dubai.  The session bounds are the same instant with
    [replace(hour=.., minute=.., second=0, microsecond=0)], so they share
    its date and comparing them is comparing times of day. *)
Record DateTime := mkDateTime {
  hour : Z;
  minute : Z;
  second : Z;
  microsecond : Z
}.

Definition dt_replace (t : DateTime) (h m : Z) : DateTime :=
  {| hour := h; minute := m; second := 0; microsecond := 0 |}.

Definition dt_micros (t : DateTime) : Z :=
  (((hour t * 60 + minute t) * 60 + second t) * 1000000 + microsecond t)%Z.

Definition dt_le (a b : DateTime) : bool := (dt_micros a <=? dt_micros b)%Z.

Record Sessions := mkSessions {
  uk_session : bool;
  us_session : bool;
  dubai_time : DateTime
}.

Definition get_optimal_trading_sessions (now : DateTime) : Sessions :=
  let uk_open := dt_replace now 12 0 in
  let uk_close := dt_replace now 20 30 in
  let us_session_active :=
    if ((18 <=? hour now) || (hour now <=? 1))%Z then true else false in
  {| uk_session := dt_le uk_open now && dt_le now uk_close;
     us_session := us_session_active;
     dubai_time := now |}.

(* ================================================================== *)
(** ** Market condition ([get_market_condition]) *)

Inductive MarketCondition := WEAK | NORMAL | TRENDING | HIGH_VOLATILITY.

Definition MarketCondition_name (c : MarketCondition) : string :=
  match c with
  | WEAK => "WEAK"
  | NORMAL => "NORMAL"
  | TRENDING => "TRENDING"
  | HIGH_VOLATILITY => "HIGH_VOLATILITY"
  end.

(** What pandas computes from the frame: the rolling ATR series (whether it
    is empty, its last value, its mean) and the distance of the last close
    from its 20-period exponential average. *)
Record Indicators := mkIndicators {
  atr_empty : bool;
  current_atr : pyfloat;
  avg_atr : pyfloat;
  trend_strength : pyfloat
}.

(** [a > b * k] on floats that may be NaN. *)
Definition fgt_scaled (a b : pyfloat) (k : Q) : bool :=
  match a, b with
  | Some x, Some y => Qlt_bool (y * k) x
  | _, _ => false
  end.

Definition get_market_condition (ind : Indicators) : MarketCondition * Q :=
  if atr_empty ind then (NORMAL, 2.5)
  else if fgt_scaled (current_atr ind) (avg_atr ind) 1.5
          && fgt (trend_strength ind) 0.02
       then (HIGH_VOLATILITY, 4.0)
  else if fgt_scaled (current_atr ind) (avg_atr ind) 1.2
          && fgt (trend_strength ind) 0.015
       then (TRENDING, 3.0)
  else if fgt_scaled (current_atr ind) (avg_atr ind) 0.8
       then (NORMAL, 2.5)
  else (WEAK, 2.0).

(* ================================================================== *)
(** ** Higher-timeframe bias ([get_higher_timeframe_bias]) *)

Inductive Bias := BULLISH | BEARISH | NEUTRAL.

Definition Bias_eqb (a b : Bias) : bool :=
  match a, b with
  | BULLISH, BULLISH | BEARISH, BEARISH | NEUTRAL, NEUTRAL => true
  | _, _ => false
  end.

Record BiasAnalysis := mkBiasAnalysis {
  bias_15m : Bias;
  bias_1h : Bias;
  aligned : bool
}.

Definition bias_neutral : BiasAnalysis :=
  {| bias_15m := NEUTRAL; bias_1h := NEUTRAL; aligned := false |}.

(** [price > ema] where the average may be NaN. *)
Definition above (price : Q) (ema : pyfloat) : bool :=
  match ema with Some e => Qlt_bool e price | None => false end.

(** [ema_20_15m] and [ema_20_1h] are the last values of the two
    exponential averages that pandas computes. *)
Definition get_higher_timeframe_bias
    (fetched_15m fetched_1h : option (list Bar)) (ema_20_15m ema_20_1h : pyfloat)
  : Outcome BiasAnalysis :=
  match get_stock_data fetched_15m, get_stock_data fetched_1h with
  | Some data_15m, Some data_1h =>
      match iloc_last (map bar_Close data_15m) with
      | None => Excepted bias_neutral
      | Some current_price =>
          let b15 := if above current_price ema_20_15m then BULLISH else BEARISH in
          let b1h := if above current_price ema_20_1h then BULLISH else BEARISH in
          Returned {| bias_15m := b15; bias_1h := b1h; aligned := Bias_eqb b15 b1h |}
      end
  | _, _ => Returned bias_neutral
  end.

(* ================================================================== *)
(** ** Entry confirmation ([enhanced_entry_conditions]) *)

Inductive Direction := LONG | SHORT.

Record Confirmations := mkConfirmations {
  volume_strong : bool;
  bias_aligned : bool;
  market_suitable : bool;
  conf_volume_surge : bool
}.

(** [sum(confirmations.values())] *)
Definition confirmation_count (c : Confirmations) : nat :=
  (Nat.b2n (volume_strong c) + Nat.b2n (bias_aligned c)
   + Nat.b2n (market_suitable c) + Nat.b2n (conf_volume_surge c))%nat.

Record TradeData := mkTradeData {
  td_direction : Direction;
  td_entry_price : Q;
  td_stop_loss : Q;
  td_target1 : Q;
  td_target2 : Q;
  td_target3 : Q;
  td_target_rr : Q;
  td_market_condition : MarketCondition;
  td_confirmations : Confirmations;
  td_volume_analysis : VolumeAnalysis;
  td_bias_analysis : BiasAnalysis
}.

(** The dictionary [self.opening_ranges], keyed by symbol. *)
Definition RangeTable := list (string * OpeningRange).

Fixpoint lookup {A} (k : string) (m : list (string * A)) : option A :=
  match m with
  | [] => None
  | (k', v) :: m' => if String.eqb k k' then Some v else lookup k m'
  end.

(** [str(n)] for a Python int that is not negative. *)
Definition str_nat (n : nat) : string :=
  NilEmpty.string_of_uint (Nat.to_uint n).

Definition market_is_suitable (c : MarketCondition) : bool :=
  match c with
  | NORMAL | TRENDING | HIGH_VOLATILITY => true
  | WEAK => false
  end.

(** The [confirmations] dictionary of [enhanced_entry_conditions]. *)
Definition entry_confirmations
    (market_condition : MarketCondition)
    (volume_analysis : VolumeAnalysis) (bias_analysis : BiasAnalysis)
  : Confirmations :=
  {| volume_strong := is_strong_volume volume_analysis;
     bias_aligned := aligned bias_analysis;
     market_suitable := market_is_suitable market_condition;
     conf_volume_surge := fge (volume_surge volume_analysis) 1.5 |}.

Section EntryConditions.

(** Python's [str] of a float, used only in the confirmation text. *)
Variable float_repr : Q -> string.

Definition enhanced_entry_conditions
    (opening_ranges : RangeTable)
    (fetched : option (list Bar)) (ind : Indicators) (bias : Outcome BiasAnalysis)
    (symbol : string) (current_price cur_volume : Q)
  : option TradeData * string :=
  match get_stock_data fetched with
  | None => (None, "No data available"%string)
  | Some data =>
      let '(market_condition, target_rr) := get_market_condition ind in
      let volume_analysis := outcome_value (enhanced_volume_analysis data) in
      let bias_analysis := outcome_value bias in
      match lookup symbol opening_ranges with
      | None => (None, "No opening range data"%string)
      | Some orb =>
          let breakout_direction :=
            if Qlt_bool (orh orb) current_price then Some LONG
            else if Qlt_bool current_price (orl orb) then Some SHORT
            else None in
          match breakout_direction with
          | None => (None, "No breakout detected"%string)
          | Some dir =>
              let confirmations :=
                entry_confirmations market_condition volume_analysis
                  bias_analysis in
              let count := confirmation_count confirmations in
              if (3 <=? count)%nat then
                let '(entry_price, stop_loss, target1, target2, target3) :=
                  match dir with
                  | LONG =>
                      let entry_price := orh orb + 0.05 in
                      let stop_loss := orl orb - 0.10 in
                      let risk_distance := entry_price - stop_loss in
                      (entry_price, stop_loss,
                       entry_price + target_rr * risk_distance,
                       entry_price + (target_rr + 1) * risk_distance,
                       entry_price + 2 * range_size orb)
                  | SHORT =>
                      let entry_price := orl orb - 0.05 in
                      let stop_loss := orh orb + 0.10 in
                      let risk_distance := stop_loss - entry_price in
                      (entry_price, stop_loss,
                       entry_price - target_rr * risk_distance,
                       entry_price - (target_rr + 1) * risk_distance,
                       entry_price - 2 * range_size orb)
                  end in
                (Some {| td_direction := dir;
                         td_entry_price := entry_price;
                         td_stop_loss := stop_loss;
                         td_target1 := target1;
                         td_target2 := target2;
                         td_target3 := target3;
                         td_target_rr := target_rr;
                         td_market_condition := market_condition;
                         td_confirmations := confirmations;
                         td_volume_analysis := volume_analysis;
                         td_bias_analysis := bias_analysis |},
                 ("Enhanced entry confirmed: "
                    ++ MarketCondition_name market_condition ++ " market, "
                    ++ float_repr target_rr ++ ":1 R:R")%string)
              else
                (None,
                 ("Entry conditions not met (" ++ str_nat count
                    ++ "/4 confirmations)")%string)
          end
      end
  end.

End EntryConditions.

(* ================================================================== *)
(** ** Trades and bot state *)

(** Which of the two classes a bot is an instance of:
    [EnhancedORBStockTradingBot] or [ORBStockTradingBot]. *)
Inductive BotClass := EnhancedORB | BasicORB.

Inductive Status := ACTIVE | CLOSED.

(** The keys that only the enhanced bot stores in a trade. *)
Record EnhancedInfo := mkEnhancedInfo {
  target_rr : Q;
  market_condition : MarketCondition;
  confirmations : Confirmations;
  volume_analysis : VolumeAnalysis;
  bias_analysis : BiasAnalysis
}.

(** The keys that [close_trade] adds; [actual_rr] only in the enhanced bot. *)
Record Closing := mkClosing {
  exit_price : Q;
  exit_reason : string;
  pnl : Q;
  actual_rr : option Q;
  exit_time : string
}.

Record Trade := mkTrade {
  id : string;
  symbol : string;
  direction : Direction;
  entry_price : Q;
  stop_loss : Q;
  target1 : Q;
  target2 : Q;
  target3 : Q;
  enhanced : option EnhancedInfo;
  position_size : Z;
  risk_amount : Q;
  timestamp : string;
  status : Status;
  tp1_hit : bool;
  tp2_hit : bool;
  current_stop : Q;
  closing : option Closing
}.

(** In-place updates of a trade dictionary. *)
Definition set_tp1 (t : Trade) (size : Z) : Trade :=
  mkTrade (id t) (symbol t) (direction t) (entry_price t) (stop_loss t)
    (target1 t) (target2 t) (target3 t) (enhanced t) size (risk_amount t)
    (timestamp t) (status t) true (tp2_hit t) (current_stop t) (closing t).

Definition set_tp2 (t : Trade) (size : Z) : Trade :=
  mkTrade (id t) (symbol t) (direction t) (entry_price t) (stop_loss t)
    (target1 t) (target2 t) (target3 t) (enhanced t) size (risk_amount t)
    (timestamp t) (status t) (tp1_hit t) true (current_stop t) (closing t).

Definition set_current_stop (t : Trade) (stop : Q) : Trade :=
  mkTrade (id t) (symbol t) (direction t) (entry_price t) (stop_loss t)
    (target1 t) (target2 t) (target3 t) (enhanced t) (position_size t)
    (risk_amount t) (timestamp t) (status t) (tp1_hit t) (tp2_hit t) stop
    (closing t).

Definition set_closed (t : Trade) (c : Closing) : Trade :=
  mkTrade (id t) (symbol t) (direction t) (entry_price t) (stop_loss t)
    (target1 t) (target2 t) (target3 t) (enhanced t) (position_size t)
    (risk_amount t) (timestamp t) CLOSED (tp1_hit t) (tp2_hit t)
    (current_stop t) (Some c).

(** [win_rate] and [avg_rr_achieved] exist only in the enhanced bot's
    dictionary; the basic bot never reads or writes them. *)
Record DailyStats := mkDailyStats {
  trades_today : Z;
  daily_pnl : Q;
  consecutive_losses : Z;
  win_rate : Q;
  avg_rr_achieved : Q
}.

(** [self.active_trades] is a dictionary keyed by trade id, kept here in
    insertion order, which is the order Python iterates it in. *)
Record Bot := mkBot {
  bot_class : BotClass;
  account_size : Q;
  risk_per_trade : Q;
  max_trades_per_day : Z;
  max_daily_loss : Q;
  active_trades : list (string * Trade);
  trades_history : list Trade;
  daily_stats : DailyStats;
  opening_ranges : RangeTable
}.

Definition set_trades (b : Bot) (active : list (string * Trade))
    (history : list Trade) (stats : DailyStats) : Bot :=
  mkBot (bot_class b) (account_size b) (risk_per_trade b)
    (max_trades_per_day b) (max_daily_loss b) active history stats
    (opening_ranges b).

Definition set_active (b : Bot) (active : list (string * Trade)) : Bot :=
  set_trades b active (trades_history b) (daily_stats b).

Definition set_history (b : Bot) (history : list Trade) : Bot :=
  set_trades b (active_trades b) history (daily_stats b).

Definition set_opening_ranges (b : Bot) (ranges : RangeTable) : Bot :=
  mkBot (bot_class b) (account_size b) (risk_per_trade b)
    (max_trades_per_day b) (max_daily_loss b) (active_trades b)
    (trades_history b) (daily_stats b) ranges.

(** Dictionary operations on an insertion-ordered association list. *)

(** [d[k] = v]: replaces the value in place, or appends a new key. *)
Fixpoint assign {A} (k : string) (v : A) (m : list (string * A))
  : list (string * A) :=
  match m with
  | [] => [(k, v)]
  | (k', v') :: m' =>
      if String.eqb k k' then (k', v) :: m' else (k', v') :: assign k v m'
  end.

(** [del d[k]] *)
Fixpoint remove_key {A} (k : string) (m : list (string * A))
  : list (string * A) :=
  match m with
  | [] => []
  | (k', v') :: m' =>
      if String.eqb k k' then remove_key k m' else (k', v') :: remove_key k m'
  end.

(** Mutation of the object stored under [k]. *)
Fixpoint update_key {A} (k : string) (f : A -> A) (m : list (string * A))
  : list (string * A) :=
  match m with
  | [] => []
  | (k', v') :: m' =>
      if String.eqb k k' then (k', f v') :: m' else (k', v') :: update_key k f m'
  end.

(** Mutation of the object appended last to a list. *)
Definition update_last {A} (f : A -> A) (l : list A) : list A :=
  match rev l with
  | [] => []
  | x :: before => rev (f x :: before)
  end.

(** [calculate_opening_range]: stores the range under the symbol. *)
Definition calculate_opening_range
    (bot : Bot) (symbol now : string) (fetched : option (list Bar))
  : Bot * option OpeningRange :=
  match opening_range_of symbol now fetched with
  | None => (bot, None)
  | Some r => (set_opening_ranges bot (assign symbol r (opening_ranges bot)), Some r)
  end.

(* ================================================================== *)
(** ** Position sizing ([calculate_position_size]) *)

(** [int(x)] of a float: truncation toward zero. *)
Definition Qtruncate (q : Q) : Z := Z.quot (Qnum q) (Zpos (Qden q)).

Definition risk_multiplier (c : MarketCondition) : Q :=
  match c with
  | WEAK => 0.5
  | NORMAL => 1.0
  | TRENDING => 1.2
  | HIGH_VOLATILITY => 0.8
  end.

(** The float division by [entry_price] raises ZeroDivisionError at 0; the
    handler returns 0. *)
Definition calculate_position_size
    (bot : Bot) (entry stop : Q) (condition : MarketCondition) : Z :=
  let risk_per_share := Qabs (entry - stop) in
  if Qle_bool risk_per_share 0 then 0%Z
  else
    let risk_amount :=
      match bot_class bot with
      | EnhancedORB =>
          account_size bot * risk_per_trade bot * risk_multiplier condition
      | BasicORB => account_size bot * risk_per_trade bot
      end in
    let position_size := Qtruncate (risk_amount / risk_per_share) in
    let max_position_value := account_size bot * 0.02 in
    if Qeq_bool entry 0 then 0%Z
    else Z.min position_size (Qtruncate (max_position_value / entry)).

(* ================================================================== *)
(** ** Trade execution ([execute_trade]) *)

(** [str(n)] for a Python int. *)
Definition str_int (z : Z) : string := NilEmpty.string_of_int (Z.to_int z).

(** [epoch] is [int(time.time())] and [now] the ISO text of the clock. *)
Definition execute_trade
    (bot : Bot) (sym : string) (td : TradeData) (epoch : Z) (now : string)
  : Bot * (bool * string) :=
  let stats := daily_stats bot in
  if (max_trades_per_day bot <=? trades_today stats)%Z
  then (bot, (false, "Daily trade limit reached"%string))
  else if Qle_bool (account_size bot * max_daily_loss bot) (Qabs (daily_pnl stats))
  then (bot, (false, "Daily loss limit reached"%string))
  else
    let size :=
      calculate_position_size bot (td_entry_price td) (td_stop_loss td)
        (td_market_condition td) in
    if (size <=? 0)%Z
    then (bot, (false, "Position size too small"%string))
    else
      let trade_id := (sym ++ "_" ++ str_int epoch)%string in
      let trade :=
        {| id := trade_id;
           symbol := sym;
           direction := td_direction td;
           entry_price := td_entry_price td;
           stop_loss := td_stop_loss td;
           target1 := td_target1 td;
           target2 := td_target2 td;
           target3 := td_target3 td;
           enhanced :=
             match bot_class bot with
             | EnhancedORB =>
                 Some {| target_rr := td_target_rr td;
                         market_condition := td_market_condition td;
                         confirmations := td_confirmations td;
                         volume_analysis := td_volume_analysis td;
                         bias_analysis := td_bias_analysis td |}
             | BasicORB => None
             end;
           position_size := size;
           risk_amount :=
             inject_Z size * Qabs (td_entry_price td - td_stop_loss td);
           timestamp := now;
           status := ACTIVE;
           tp1_hit := false;
           tp2_hit := false;
           current_stop := td_stop_loss td;
           closing := None |} in
      let stats' :=
        mkDailyStats (trades_today stats + 1)%Z (daily_pnl stats)
          (consecutive_losses stats) (win_rate stats) (avg_rr_achieved stats) in
      (set_trades bot (assign trade_id trade (active_trades bot))
         (trades_history bot) stats',
       (true,
        match bot_class bot with
        | EnhancedORB => ("Enhanced trade executed: " ++ trade_id)%string
        | BasicORB => ("Trade executed: " ++ trade_id)%string
        end)).

(* ================================================================== *)
(** ** Partial exits ([hit_take_profit]) *)

(** The trade is mutated in place and the message is formatted after that.
    The basic bot formats it with an unbound name [symbol] and leaves
    through its handler, with the mutation done; the enhanced bot returns,
    unless the trade lacks the keys [target_rr] and [market_condition] that
    its message reads.  A missing id (KeyError) and a level other than 1
    and 2 (unbound [message]) leave through the handler as well. *)
Definition hit_take_profit (bot : Bot) (trade_id : string) (tp_level : Z)
  : Outcome Bot :=
  match lookup trade_id (active_trades bot) with
  | None => Excepted bot
  | Some trade =>
      let leave (b : Bot) :=
        match bot_class bot with
        | EnhancedORB => returned_if (enhanced trade) b
        | BasicORB => Excepted b
        end in
      if (tp_level =? 1)%Z then
        leave (set_active bot
                 (update_key trade_id
                    (fun t => set_tp1 t (int_mul_half (position_size t)))
                    (active_trades bot)))
      else if (tp_level =? 2)%Z then
        leave (set_active bot
                 (update_key trade_id
                    (fun t => set_tp2 t (int_mul_quarter (position_size t)))
                    (active_trades bot)))
      else Excepted bot
  end.

(* ================================================================== *)
(** ** Closing a trade ([close_trade]) *)

Definition trade_pnl (t : Trade) (exit : Q) : Q :=
  match direction t with
  | LONG => (exit - entry_price t) * inject_Z (position_size t)
  | SHORT => (entry_price t - exit) * inject_Z (position_size t)
  end.

(** [risk_amount] and [actual_rr] as [close_trade] of the enhanced bot
    computes them. *)
Definition close_risk_amount (t : Trade) : Q :=
  Qabs (entry_price t - stop_loss t) * inject_Z (position_size t).

Definition close_actual_rr (t : Trade) (exit : Q) : Q :=
  if Qlt_bool 0 (close_risk_amount t)
  then trade_pnl t exit / close_risk_amount t
  else 0.

(** [[t['pnl'] for t in history]]: KeyError on a trade without the key. *)
Fixpoint history_pnls (history : list Trade) : option (list Q) :=
  match history with
  | [] => Some []
  | t :: rest =>
      match closing t, history_pnls rest with
      | Some c, Some ps => Some (pnl c :: ps)
      | _, _ => None
      end
  end.

(** [t.get('actual_rr', 0)] *)
Definition history_rr (t : Trade) : Q :=
  match closing t with
  | Some c => match actual_rr c with Some r => r | None => 0 end
  | None => 0
  end.

Definition Qof_nat (n : nat) : Q := inject_Z (Z.of_nat n).

(** The handler is reached on a missing id, on a history entry without
    [pnl], and when the closing message of the enhanced bot reads the key
    [target_rr] of a trade that lacks it; what was written before stays. *)
Definition close_trade
    (bot : Bot) (trade_id : string) (exit : Q) (reason now : string)
  : Outcome Bot :=
  match lookup trade_id (active_trades bot) with
  | None => Excepted bot
  | Some trade =>
      let p := trade_pnl trade exit in
      let rr :=
        match bot_class bot with
        | EnhancedORB => Some (close_actual_rr trade exit)
        | BasicORB => None
        end in
      let trade' :=
        set_closed trade
          {| exit_price := exit; exit_reason := reason; pnl := p;
             actual_rr := rr; exit_time := now |} in
      let history := trades_history bot ++ [trade'] in
      let active := remove_key trade_id (active_trades bot) in
      let stats := daily_stats bot in
      let losses :=
        if Qlt_bool p 0 then (consecutive_losses stats + 1)%Z else 0%Z in
      let stats1 :=
        mkDailyStats (trades_today stats) (daily_pnl stats + p) losses
          (win_rate stats) (avg_rr_achieved stats) in
      match bot_class bot with
      | BasicORB => Returned (set_trades bot active history stats1)
      | EnhancedORB =>
          let total_trades := List.length history in
          match history_pnls history with
          | None => Excepted (set_trades bot active history stats1)
          | Some pnls =>
              let winning_trades :=
                List.length (filter (fun x => Qlt_bool 0 x) pnls) in
              let rate :=
                if (0 <? total_trades)%nat
                then Qof_nat winning_trades / Qof_nat total_trades * 100
                else 0 in
              let total_rr := Qsum (map history_rr history) in
              let avg :=
                if (0 <? total_trades)%nat
                then total_rr / Qof_nat total_trades
                else 0 in
              returned_if (enhanced trade)
                (set_trades bot active history
                   (mkDailyStats (trades_today stats1) (daily_pnl stats1)
                      (consecutive_losses stats1) rate avg))
          end
      end
  end.

(* ================================================================== *)
(** ** Monitoring ([monitor_active_trades]) *)

(** The latest 1-minute frame per symbol, as fetched during a tick. *)
Definition Feed := string -> option (list Bar).

Definition current_price_of (feed : Feed) (sym : string) : option Q :=
  match get_stock_data (feed sym) with
  | None => None
  | Some data => iloc_last (map bar_Close data)
  end.

Definition stop_hit (t : Trade) (price : Q) : bool :=
  match direction t with
  | LONG => Qle_bool price (current_stop t)
  | SHORT => Qle_bool (current_stop t) price
  end.

(** [price >= target] for a LONG trade, [price <= target] for a SHORT one. *)
Definition reached (t : Trade) (price target : Q) : bool :=
  match direction t with
  | LONG => Qle_bool target price
  | SHORT => Qle_bool price target
  end.

(** The take-profit chain of one loop iteration. *)
Definition check_targets
    (bot : Bot) (trade_id : string) (t : Trade) (price : Q) (now : string)
  : Bot :=
  if negb (tp1_hit t) && reached t price (target1 t)
  then outcome_value (hit_take_profit bot trade_id 1)
  else if negb (tp2_hit t) && reached t price (target2 t)
  then outcome_value (hit_take_profit bot trade_id 2)
  else if reached t price (target3 t)
  then outcome_value (close_trade bot trade_id price "Target 3 Hit" now)
  else bot.

(** The breakeven stop of the block that follows the chain. *)
Definition trail_stop (t : Trade) : Trade :=
  if tp1_hit t && negb (tp2_hit t) then
    match direction t with
    | LONG =>
        if Qlt_bool (current_stop t) (entry_price t)
        then set_current_stop t (entry_price t) else t
    | SHORT =>
        if Qlt_bool (entry_price t) (current_stop t)
        then set_current_stop t (entry_price t) else t
    end
  else t.

(** The loop variable [trade] is the dictionary object itself: the block
    acts on it where it now lives, under its id in [active_trades] or, when
    the chain has just closed it, at the end of [trades_history]. *)
Definition trail_stop_object (bot : Bot) (trade_id : string) : Bot :=
  match lookup trade_id (active_trades bot) with
  | Some _ => set_active bot (update_key trade_id trail_stop (active_trades bot))
  | None => set_history bot (update_last trail_stop (trades_history bot))
  end.

(** One iteration of the loop over the snapshot [list(active_trades.items())]. *)
Definition monitor_iteration
    (feed : Feed) (now : string) (bot : Bot) (trade_id : string) : Bot :=
  match lookup trade_id (active_trades bot) with
  | None => bot
  | Some trade =>
      match current_price_of feed (symbol trade) with
      | None => bot
      | Some price =>
          if stop_hit trade price
          then outcome_value (close_trade bot trade_id price "Stop Loss Hit" now)
          else trail_stop_object
                 (check_targets bot trade_id trade price now) trade_id
      end
  end.

Definition monitor_active_trades (bot : Bot) (feed : Feed) (now : string) : Bot :=
  fold_left (monitor_iteration feed now) (map fst (active_trades bot)) bot.

(** A run of monitoring ticks, each with its feed and clock text. *)
Definition monitor_ticks (bot : Bot) (ticks : list (Feed * string)) : Bot :=
  fold_left (fun b tick => monitor_active_trades b (fst tick) (snd tick))
    ticks bot.


(** The number of winning trades among the P&Ls of a history. *)
Definition winners (pnls : list Q) : nat :=
  List.length (filter (fun x => Qlt_bool 0 x) pnls).

(** The flags that [enhanced_entry_conditions] evaluates on a frame. *)
Definition flags_of_call
    (ind : Indicators) (data : list Bar) (bias : Outcome BiasAnalysis)
  : Confirmations :=
  entry_confirmations (fst (get_market_condition ind))
    (outcome_value (enhanced_volume_analysis data)) (outcome_value bias).

Definition sample_bars : list Bar :=
  [ mkBar 100 103 99 102 1000;
    mkBar 102 105 101 104 1500;
    mkBar 104 104.5 100 101 900 ].

Definition halted_bars : list Bar :=
  [ mkBar 50 50 50 50 0; mkBar 50 50 50 50 0; mkBar 50 50 50 50 0 ].

(* ================================================================== *)
(** ** Markets and sessions of the enhanced bot *)

Definition us_stocks : list string :=
  ["AAPL"; "TSLA"; "MSFT"; "GOOGL"; "AMZN"; "META"; "NVDA"; "NFLX"]%string.

Definition uk_stocks : list string :=
  ["LLOY.L"; "VOD.L"; "BARC.L"; "TSCO.L"; "BP.L"; "AZN.L"; "ULVR.L";
   "SHEL.L"]%string.

Definition all_stocks : list string := us_stocks ++ uk_stocks.

(** [symbol in stocks] *)
Definition str_in (s : string) (l : list string) : bool :=
  existsb (String.eqb s) l.

(** [get_active_stocks_for_session] *)
Definition get_active_stocks_for_session (now : DateTime) : list string :=
  let sessions := get_optimal_trading_sessions now in
  if uk_session sessions && us_session sessions then all_stocks
  else if uk_session sessions then uk_stocks
  else if us_session sessions then us_stocks
  else [].

(** [is_market_open] of the enhanced bot *)
Definition is_market_open (now : DateTime) (sym : string) : bool * string :=
  let sessions := get_optimal_trading_sessions now in
  if str_in sym uk_stocks then (uk_session sessions, "UK market"%string)
  else if str_in sym us_stocks then (us_session sessions, "US market"%string)
  else (false, "Unknown market"%string).

(** [is_opening_range_period] of the enhanced bot: every symbol that is
    not a UK stock takes the US window. *)
Definition is_opening_range_period (now : DateTime) (sym : string) : bool :=
  let '(opening_start, opening_end) :=
    if str_in sym uk_stocks
    then (dt_replace now 12 0, dt_replace now 12 30)
    else (dt_replace now 18 30, dt_replace now 19 0) in
  dt_le opening_start now && dt_le now opening_end.

(** A wall-clock reading with its fields in range. *)
Definition valid_clock (t : DateTime) : Prop :=
  (0 <= hour t < 24 /\ 0 <= minute t < 60 /\ 0 <= second t < 60 /\
   0 <= microsecond t < 1000000)%Z.

(* ================================================================== *)
(** ** The phases of [run] *)

(** The range pass of the enhanced bot.  [last] is
    [last_opening_range_calc], [today] the date of the clock.  The date is
    recorded inside the loop over the symbols, after the first symbol that
    is in its opening window. *)
Definition range_pass_step
    (clock : DateTime) (today : Z) (now : string) (fetch : Feed)
    (state : Bot * option Z) (sym : string) : Bot * option Z :=
  let '(bot, last) := state in
  if is_opening_range_period clock sym then
    let bot' :=
      match last with
      | Some d =>
          if (d =? today)%Z then bot
          else fst (calculate_opening_range bot sym now (fetch sym))
      | None => fst (calculate_opening_range bot sym now (fetch sym))
      end in
    (bot', Some today)
  else (bot, last).

Definition range_pass
    (clock : DateTime) (today : Z) (now : string) (fetch : Feed)
    (stocks : list string) (state : Bot * option Z) : Bot * option Z :=
  fold_left (range_pass_step clock today now fetch) stocks state.

(** The range pass of the basic bot, inside its opening window: all the
    supported stocks are computed, then the date is recorded. *)
Definition range_pass_basic
    (today : Z) (now : string) (fetch : Feed)
    (stocks : list string) (state : Bot * option Z) : Bot * option Z :=
  let '(bot, last) := state in
  let compute :=
    fold_left
      (fun b sym => fst (calculate_opening_range b sym now (fetch sym)))
      stocks bot in
  match last with
  | Some d => if (d =? today)%Z then (bot, last) else (compute, Some today)
  | None => (compute, Some today)
  end.

(** [any(trade['symbol'] == symbol and trade['status'] == 'ACTIVE' for
    trade in self.active_trades.values())] *)
Definition has_active_trade (bot : Bot) (sym : string) : bool :=
  existsb
    (fun entry =>
       String.eqb (symbol (snd entry)) sym
       && match status (snd entry) with ACTIVE => true | CLOSED => false end)
    (active_trades bot).

(** The guarded entry of the scanning loop: a proposal is executed only
    for a symbol that has no ACTIVE trade. *)
Definition enter_if_flat
    (bot : Bot) (sym : string) (proposal : option TradeData)
    (epoch : Z) (now : string) : Bot :=
  match proposal with
  | None => bot
  | Some td =>
      if has_active_trade bot sym then bot
      else fst (execute_trade bot sym td epoch now)
  end.

(** What the scanning loop fetches and reads for one symbol. *)
Record Snapshot := mkSnapshot {
  snap_1m : option (list Bar);
  snap_5m : option (list Bar);
  snap_indicators : Indicators;
  snap_bias : Outcome BiasAnalysis;
  snap_epoch : Z;
  snap_now : string
}.

Section Scanning.

Variable float_repr : Q -> string.

(** One symbol of the scanning loop of the enhanced bot. *)
Definition scan_symbol
    (clock : DateTime) (view : string -> Snapshot) (bot : Bot) (sym : string)
  : Bot :=
  match lookup sym (opening_ranges bot) with
  | None => bot
  | Some _ =>
      if fst (is_market_open clock sym) then
        match get_stock_data (snap_1m (view sym)) with
        | None => bot
        | Some data =>
            match iloc_last (map bar_Close data),
                  iloc_last (map bar_Volume data) with
            | Some price, Some volume =>
                enter_if_flat bot sym
                  (fst (enhanced_entry_conditions float_repr
                          (opening_ranges bot) (snap_5m (view sym))
                          (snap_indicators (view sym)) (snap_bias (view sym))
                          sym price volume))
                  (snap_epoch (view sym)) (snap_now (view sym))
            | _, _ => bot
            end
        end
      else bot
  end.

Definition scan_breakouts
    (clock : DateTime) (view : string -> Snapshot) (stocks : list string)
    (bot : Bot) : Bot :=
  fold_left (scan_symbol clock view) stocks bot.

End Scanning.

(** The end-of-day sweep: every trade whose symbol has data is closed at
    its latest price. *)
Definition sweep_iteration (feed : Feed) (now : string) (bot : Bot)
    (trade_id : string) : Bot :=
  match lookup trade_id (active_trades bot) with
  | None => bot
  | Some trade =>
      match current_price_of feed (symbol trade) with
      | None => bot
      | Some price =>
          outcome_value (close_trade bot trade_id price "End of Day Close" now)
      end
  end.

Definition close_all_positions (bot : Bot) (feed : Feed) (now : string) : Bot :=
  fold_left (sweep_iteration feed now) (map fst (active_trades bot)) bot.

(** The clock test of the sweep in the enhanced bot. *)
Definition is_sweep_time (clock : DateTime) : bool :=
  ((hour clock =? 20) && (45 <=? minute clock)
   || (hour clock =? 1) && (0 <=? minute clock))%Z.

(** What one pass of the loop of the enhanced bot reads from outside. *)
Record TickInput := mkTickInput {
  tick_clock : DateTime;
  tick_today : Z;
  tick_now : string;
  tick_range_feed : Feed;
  tick_monitor_feed : Feed;
  tick_view : string -> Snapshot;
  tick_sweep_feed : Feed
}.

Section RunLoop.

Variable float_repr : Q -> string.

(** One pass of the [while] loop of the enhanced bot. *)
Definition run_tick (input : TickInput) (state : Bot * option Z)
  : Bot * option Z :=
  let clock := tick_clock input in
  let active_stocks := get_active_stocks_for_session clock in
  match active_stocks with
  | [] => state
  | _ :: _ =>
      let '(bot1, last) :=
        range_pass clock (tick_today input) (tick_now input)
          (tick_range_feed input) active_stocks state in
      let bot2 :=
        match active_trades bot1 with
        | [] => bot1
        | _ :: _ =>
            monitor_active_trades bot1 (tick_monitor_feed input)
              (tick_now input)
        end in
      let bot3 :=
        scan_breakouts float_repr clock (tick_view input) active_stocks bot2 in
      let bot4 :=
        if is_sweep_time clock
        then close_all_positions bot3 (tick_sweep_feed input) (tick_now input)
        else bot3 in
      (bot4, last)
  end.

Definition run_ticks (inputs : list TickInput) (state : Bot * option Z)
  : Bot * option Z :=
  fold_left (fun st input => run_tick input st) inputs state.

End RunLoop.

(* ================================================================== *)
(** ** Breakout check of the basic bot ([check_breakout_conditions]) *)

Record BreakoutData := mkBreakoutData {
  bd_direction : Direction;
  bd_entry_price : Q;
  bd_stop_loss : Q;
  bd_target1 : Q;
  bd_target2 : Q;
  bd_target3 : Q;
  bd_volume_ok : bool
}.

(** [current_volume >= volume_avg * 1.5], false on a NaN average. *)
Definition volume_condition (cur_volume : Q) (avg : pyfloat) : bool :=
  match avg with
  | Some a => Qle_bool (a * 1.5) cur_volume
  | None => false
  end.

Definition check_breakout_conditions
    (ranges : RangeTable) (sym : string) (current_price cur_volume : Q)
  : option BreakoutData * string :=
  match lookup sym ranges with
  | None => (None, "No opening range data"%string)
  | Some orb =>
      let h := orh orb in
      let l := orl orb in
      let ok := volume_condition cur_volume (volume_avg orb) in
      if Qlt_bool h current_price then
        (Some {| bd_direction := LONG;
                 bd_entry_price := h + 0.05;
                 bd_stop_loss := l - 0.10;
                 bd_target1 := h + 0.05 + 2 * (h + 0.05 - (l - 0.10));
                 bd_target2 := h + 0.05 + 3 * (h + 0.05 - (l - 0.10));
                 bd_target3 := h + 0.05 + 2 * range_size orb;
                 bd_volume_ok := ok |},
         "Bullish breakout detected"%string)
      else if Qlt_bool current_price l then
        (Some {| bd_direction := SHORT;
                 bd_entry_price := l - 0.05;
                 bd_stop_loss := h + 0.10;
                 bd_target1 := l - 0.05 - 2 * (h + 0.10 - (l - 0.05));
                 bd_target2 := l - 0.05 - 3 * (h + 0.10 - (l - 0.05));
                 bd_target3 := l - 0.05 - 2 * range_size orb;
                 bd_volume_ok := ok |},
         "Bearish breakdown detected"%string)
      else (None, "No breakout detected"%string)
  end.

(* ================================================================== *)
(** ** What the specification says of the achieved risk:reward *)

(** The specification's formula: the recorded risk:reward of a closed trade
    is its P&L over |entry - original stop| times the size the position had
    at entry, and 0 when that product is 0. *)
Definition rr_on_entry_size (entry_size : Z) (t : Trade) : Prop :=
  exists c r,
    closing t = Some c /\ actual_rr c = Some r /\
    r == (let d := Qabs (entry_price t - stop_loss t) * inject_Z entry_size in
          if Qeq_bool d 0 then 0 else pnl c / d).

(* ================================================================== *)
(** ** A sample session *)

Definition sample_bot (c : BotClass) : Bot :=
  {| bot_class := c;
     account_size := 50000;
     risk_per_trade := 0.01;
     max_trades_per_day := match c with EnhancedORB => 5 | BasicORB => 3 end;
     max_daily_loss := 0.03;
     active_trades := [];
     trades_history := [];
     daily_stats := mkDailyStats 0 0 0 0 0;
     opening_ranges :=
       [("AAPL"%string, mkOpeningRange "AAPL" 9.95 9.5 0.45 (Some 400) "t0")] |}.

Definition sample_frame : list Bar :=
  [ mkBar 9.6 9.9 9.5 9.8 100;
    mkBar 9.8 9.95 9.7 9.9 100;
    mkBar 9.9 10.3 9.9 10.2 1000 ].

Definition sample_indicators : Indicators :=
  mkIndicators false (Some 0.3) (Some 0.3) (Some 0.01).

Definition sample_bias : Outcome BiasAnalysis :=
  Returned (mkBiasAnalysis BULLISH BULLISH true).

(** The proposal of the enhanced engine for a breakout at 10.2. *)
Definition sample_entry : option TradeData * string :=
  enhanced_entry_conditions (fun _ => "2.5"%string)
    (opening_ranges (sample_bot EnhancedORB)) (Some sample_frame)
    sample_indicators sample_bias "AAPL" 10.2 1000.

(** The bot after it has executed that proposal. *)
Definition sample_entered (c : BotClass) : Bot :=
  match fst sample_entry with
  | Some td => fst (execute_trade (sample_bot c) "AAPL" td 1700000000 "t1")
  | None => sample_bot c
  end.

Definition sample_trade_id : string := "AAPL_1700000000".

(** A feed whose latest close is [price] for every symbol. *)
Definition feed_at (price : Q) : Feed :=
  fun _ => Some [mkBar price price price price 1000].

(** The size of the sample trade while it is open. *)
Definition sample_size (b : Bot) : option Z :=
  option_map position_size (lookup sample_trade_id (active_trades b)).

(* ================================================================== *)
(** ** Tightening of stops *)

(** [t'] is a later state of the trade [t]: same direction and levels, and
    a stop that has not moved away from the price (not down for a LONG
    trade, not up for a SHORT one). *)
Definition tightened (t t' : Trade) : Prop :=
  direction t' = direction t /\
  entry_price t' = entry_price t /\
  stop_loss t' = stop_loss t /\
  match direction t with
  | LONG => current_stop t <= current_stop t'
  | SHORT => current_stop t' <= current_stop t
  end.

(** Every trade active in [b'] was active in [b], with a stop that is at
    least as tight. *)
Definition stops_tightened (b b' : Bot) : Prop :=
  forall k t',
    lookup k (active_trades b') = Some t' ->
    exists t, lookup k (active_trades b) = Some t /\ tightened t t'.

(** The sample trade after its first partial exit: 50 shares left, the
    stop at the entry price. *)
Definition sample_halved_trade : Trade :=
  mkTrade sample_trade_id "AAPL" LONG 10.0000 9.400
    11.500000000000 12.100000000000 10.900000
    (Some (mkEnhancedInfo 2.5 NORMAL
             (mkConfirmations false true true true)
             (mkVolumeAnalysis (Some (3000 # 1200)) (Some (3600 # 3600))
                false (Some (1200 # 3)) 1000)
             (mkBiasAnalysis BULLISH BULLISH true)))
    50 60.0000000 "t1" ACTIVE true false 10.0000 None.

(** The sample bot on a day on which it has used up its trades. *)
Definition sample_bot_at_limit : Bot :=
  set_trades (sample_bot EnhancedORB) [] [] (mkDailyStats 5 0 0 0 0).

Definition sample_proposal : TradeData :=
  mkTradeData LONG 10 9.4 11.5 12.1 10.9 2.5 NORMAL
    (mkConfirmations true true true true)
    (mkVolumeAnalysis (Some 2.5) (Some 1.3) true (Some 400) 1000)
    (mkBiasAnalysis BULLISH BULLISH true).

(** A range table with the range from 100 to 105. *)
Definition sample_ranges_105 : RangeTable :=
  [("MSFT"%string, mkOpeningRange "MSFT" 105 100 5 (Some 400) "t0")].

(* ================================================================== *)
(** ** Further sample inputs *)

(** Seven bars whose last volume is a surge on a rising trend. *)
Definition surge_bars : list Bar :=
  [ mkBar 10 10 10 10 0; mkBar 10 10 10 10 0; mkBar 10 10 10 10 10;
    mkBar 10 10 10 10 10; mkBar 10 10 10 10 10; mkBar 10 10 10 10 10;
    mkBar 10 10 10 10 100 ].

(** The indicators of a frame too short for the 14-period rolling mean:
    the series is not empty, its values are NaN. *)
Definition short_frame_indicators : Indicators :=
  mkIndicators false None None (Some 0.03).

(** The proposal of the engine for a breakout at 106 of the range from
    100 to 105. *)
Definition sample_proposal_105 : TradeData :=
  mkTradeData LONG (105 + 0.05) (100 - 0.10)
    (105 + 0.05 + 2.5 * (105 + 0.05 - (100 - 0.10)))
    (105 + 0.05 + (2.5 + 1) * (105 + 0.05 - (100 - 0.10)))
    (105 + 0.05 + 2 * 5) 2.5 NORMAL
    (flags_of_call sample_indicators sample_frame sample_bias)
    (outcome_value (enhanced_volume_analysis sample_frame))
    (outcome_value sample_bias).

(** The sample bot on a day that has made 3% of the account. *)
Definition sample_bot_in_profit : Bot :=
  set_trades (sample_bot EnhancedORB) [] [] (mkDailyStats 1 1500 0 100 2.5).

(** A proposal whose stop coincides with its entry. *)
Definition riskless_proposal : TradeData :=
  mkTradeData LONG 10 10 11.5 12.1 10.9 2.5 NORMAL
    (mkConfirmations true true true true)
    (mkVolumeAnalysis (Some 2.5) (Some 1.3) true (Some 400) 1000)
    (mkBiasAnalysis BULLISH BULLISH true).

(** A feed that has no data for any symbol. *)
Definition feed_down : Feed := fun _ => None.

(** The record that [close_trade] appends for a trade closed at [exit]. *)
Definition closed_record
    (bot : Bot) (t : Trade) (exit : Q) (reason now : string) : Trade :=
  set_closed t
    {| exit_price := exit;
       exit_reason := reason;
       pnl := trade_pnl t exit;
       actual_rr :=
         match bot_class bot with
         | EnhancedORB => Some (close_actual_rr t exit)
         | BasicORB => None
         end;
       exit_time := now |}.

(** The sample trade as [execute_trade] stores it, per bot class. *)
Definition sample_open_trade (c : BotClass) : Trade :=
  Eval vm_compute in
    match lookup sample_trade_id (active_trades (sample_entered c)) with
    | Some t => t
    | None => sample_halved_trade
    end.

(* ================================================================== *)
(** ** Relations between states of the bot *)

(** What monitoring and closing never write: the configuration, the
    ranges and the count of the day's trades. *)
Definition same_setup (b b' : Bot) : Prop :=
  bot_class b' = bot_class b /\
  account_size b' = account_size b /\
  risk_per_trade b' = risk_per_trade b /\
  max_trades_per_day b' = max_trades_per_day b /\
  max_daily_loss b' = max_daily_loss b /\
  opening_ranges b' = opening_ranges b /\
  trades_today (daily_stats b') = trades_today (daily_stats b).

(** [b'] comes from [b] without new trades: every trade of its table was
    in the table of [b], in a state related to the new one by [R]. *)
Definition evolves (R : Trade -> Trade -> Prop) (b b' : Bot) : Prop :=
  same_setup b b' /\
  forall k t',
    lookup k (active_trades b') = Some t' ->
    exists t, lookup k (active_trades b) = Some t /\ R t t'.

(** A later state of the same trade: identity and levels as created,
    targets once hit stay hit, and a size that is not negative does not
    grow. *)
Definition progressed (t t' : Trade) : Prop :=
  id t' = id t /\ symbol t' = symbol t /\ direction t' = direction t /\
  status t' = status t /\
  entry_price t' = entry_price t /\ stop_loss t' = stop_loss t /\
  target1 t' = target1 t /\ target2 t' = target2 t /\
  target3 t' = target3 t /\
  (tp1_hit t = true -> tp1_hit t' = true) /\
  (tp2_hit t = true -> tp2_hit t' = true) /\
  ((0 <= position_size t)%Z ->
   (0 <= position_size t' <= position_size t)%Z).

(** Every trade of the table is ACTIVE and no two trades of the table are
    on the same symbol. *)
Definition one_trade_per_symbol (b : Bot) : Prop :=
  (forall k t, lookup k (active_trades b) = Some t -> status t = ACTIVE) /\
  (forall k1 k2 t1 t2,
      lookup k1 (active_trades b) = Some t1 ->
      lookup k2 (active_trades b) = Some t2 ->
      symbol t1 = symbol t2 -> k1 = k2).

(** The day's count of trades has reached the limit. *)
Definition at_trade_limit (b : Bot) : Prop :=
  (max_trades_per_day b <= trades_today (daily_stats b))%Z.

(** The record that the sweep appends for a trade of the table. *)
Definition sweep_record (bot : Bot) (feed : Feed) (now : string)
    (entry : string * Trade) : Trade :=
  match current_price_of feed (symbol (snd entry)) with
  | Some price =>
      closed_record bot (snd entry) price "End of Day Close" now
  | None => snd entry
  end.

(** The table of [b'] holds no trade that the table of [b] did not hold,
    and the day's count and limit are the same. *)
Definition no_new_trades (b b' : Bot) : Prop :=
  max_trades_per_day b' = max_trades_per_day b /\
  trades_today (daily_stats b') = trades_today (daily_stats b) /\
  forall k t',
    lookup k (active_trades b') = Some t' ->
    exists t, lookup k (active_trades b) = Some t /\ progressed t t'.

(** A quiet snapshot and a tick of the enhanced loop at 18:45 Dubai time
    in which every symbol trades at [price]. *)
Definition sample_snapshot (price : Q) : Snapshot :=
  mkSnapshot (Some [mkBar price price price price 1000]) (Some sample_frame)
    sample_indicators sample_bias 1700000100 "t5".

Definition sample_tick (price : Q) : TickInput :=
  mkTickInput (mkDateTime 18 45 0 0) 19700 "t5" (feed_at price)
    (feed_at price) (fun _ => sample_snapshot price) (feed_at price).

(** Indicators of a quiet market, which reads as WEAK. *)
Definition weak_indicators : Indicators :=
  mkIndicators false (Some 0.1) (Some 0.3) (Some 0.01).

(** The proposal of the enhanced engine in that market for a breakout at
    106 of the range from 100 to 105, on a volume surge. *)
Definition weak_market_proposal : TradeData :=
  mkTradeData LONG (105 + 0.05) (100 - 0.10)
    (105 + 0.05 + 2.0 * (105 + 0.05 - (100 - 0.10)))
    (105 + 0.05 + (2.0 + 1) * (105 + 0.05 - (100 - 0.10)))
    (105 + 0.05 + 2 * 5) 2.0 WEAK
    (flags_of_call weak_indicators surge_bars sample_bias)
    (outcome_value (enhanced_volume_analysis surge_bars))
    (outcome_value sample_bias).

(* ================================================================== *)
(** * Properties *)

(** ** Outcomes and comparisons *)

Lemma outcome_value_returned_if {A B} (key : option B) (a : A) :
  outcome_value (returned_if key a) = a.
Proof. destruct key; reflexivity. Qed.

Lemma Qlt_bool_iff (x y : Q) : Qlt_bool x y = true <-> x < y.
Proof.
  unfold Qlt_bool. rewrite negb_true_iff. split; intro H.
  - apply Qnot_le_lt. intro Hle. apply Qle_bool_iff in Hle. congruence.
  - destruct (Qle_bool y x) eqn:E; [ | reflexivity ].
    apply Qle_bool_iff in E. exfalso. exact (Qlt_not_le _ _ H E).
Qed.

Lemma Qlt_bool_false_iff (x y : Q) : Qlt_bool x y = false <-> y <= x.
Proof.
  unfold Qlt_bool. rewrite negb_false_iff. apply Qle_bool_iff.
Qed.

(** ** Opening range *)

Section FoldBounds.

Lemma fold_max_ge_init (xs : list Q) (x : Q) : x <= fold_left Qmax xs x.
Proof.
  revert x. induction xs as [ | y ys IH ]; intro x; simpl.
  - apply Qle_refl.
  - eapply Qle_trans; [ apply Q.le_max_l | apply IH ].
Qed.

Lemma fold_max_ge_elem (xs : list Q) (x y : Q) :
  In y xs -> y <= fold_left Qmax xs x.
Proof.
  revert x. induction xs as [ | z zs IH ]; intros x Hin; simpl.
  - destruct Hin.
  - destruct Hin as [ -> | Hin ].
    + eapply Qle_trans; [ apply Q.le_max_r | apply fold_max_ge_init ].
    + apply IH, Hin.
Qed.

Lemma fold_min_le_init (xs : list Q) (x : Q) : fold_left Qmin xs x <= x.
Proof.
  revert x. induction xs as [ | y ys IH ]; intro x; simpl.
  - apply Qle_refl.
  - eapply Qle_trans; [ apply IH | apply Q.le_min_l ].
Qed.

Lemma fold_min_le_elem (xs : list Q) (x y : Q) :
  In y xs -> fold_left Qmin xs x <= y.
Proof.
  revert x. induction xs as [ | z zs IH ]; intros x Hin; simpl.
  - destruct Hin.
  - destruct Hin as [ -> | Hin ].
    + eapply Qle_trans; [ apply fold_min_le_init | apply Q.le_min_r ].
    + apply IH, Hin.
Qed.

Lemma series_max_upper (l : list Q) (m y : Q) :
  series_max l = Some m -> In y l -> y <= m.
Proof.
  destruct l as [ | x xs ]; simpl; [ discriminate | ].
  intros [= <-] [ <- | Hin ].
  - apply fold_max_ge_init.
  - apply fold_max_ge_elem, Hin.
Qed.

Lemma series_min_lower (l : list Q) (m y : Q) :
  series_min l = Some m -> In y l -> m <= y.
Proof.
  destruct l as [ | x xs ]; simpl; [ discriminate | ].
  intros [= <-] [ <- | Hin ].
  - apply fold_min_le_init.
  - apply fold_min_le_elem, Hin.
Qed.

End FoldBounds.

(** Property X6.
    The range encloses every bar of the window it is taken from. *)
Lemma opening_range_encloses_window
    (symbol now : string) (fetched : option (list Bar)) (data : list Bar)
    (r : OpeningRange) (x : Bar) :
  get_stock_data fetched = Some data ->
  opening_range_of symbol now fetched = Some r ->
  In x (df_head 6 data) ->
  orl r <= bar_Low x /\ bar_High x <= orh r.
Proof.
  intros Hdata Hr Hin. unfold opening_range_of in Hr. rewrite Hdata in Hr.
  cbv zeta in Hr.
  destruct (series_max (map bar_High (df_head 6 data))) as [h | ] eqn:Hmax;
    [ | discriminate ].
  destruct (series_min (map bar_Low (df_head 6 data))) as [l | ] eqn:Hmin;
    [ | discriminate ].
  injection Hr as <-. cbn [orh orl]. split.
  - apply (series_min_lower _ _ _ Hmin), in_map, Hin.
  - apply (series_max_upper _ _ _ Hmax), in_map, Hin.
Qed.

(** A non-empty frame always yields a range. *)
Lemma opening_range_of_nonempty (symbol now : string) (b : Bar) (bs : list Bar) :
  exists r, opening_range_of symbol now (Some (b :: bs)) = Some r.
Proof.
  unfold opening_range_of. simpl. eexists. reflexivity.
Qed.

Lemma lookup_assign_eq {A} (k : string) (v : A) (m : list (string * A)) :
  lookup k (assign k v m) = Some v.
Proof.
  induction m as [ | [k' v'] m IH ]; simpl.
  - rewrite String.eqb_refl. reflexivity.
  - destruct (String.eqb k k') eqn:E; simpl; rewrite E; [ reflexivity | exact IH ].
Qed.



(** ** Volume analysis *)

(** Claim C10.  When the mean volume of the trailing 20 bars is 0 the
    analysis returns normally (not through its [except] branch), with
    [volume_surge] and [volume_trend] equal to 1 and [is_strong_volume]
    false. *)
Theorem volume_analysis_zero_mean
    (data : list Bar) (m : Q)
    (Hmean : series_mean (df_tail 20 (map bar_Volume data)) = Some m)
    (Hzero : m == 0) :
  exists va,
    enhanced_volume_analysis data = Returned va /\
    volume_surge va = Some 1 /\
    volume_trend va = Some 1 /\
    is_strong_volume va = false.
Proof.
  unfold enhanced_volume_analysis. cbv zeta.
  destruct (iloc_last (map bar_Volume data)) as [cur | ] eqn:Hlast.
  - rewrite Hmean. simpl fgt.
    assert (Hnot : Qlt_bool 0 m = false).
    { apply Qlt_bool_false_iff. rewrite Hzero. apply Qle_refl. }
    rewrite Hnot. eexists. split; [ reflexivity | ]. simpl. auto.
  - exfalso. unfold iloc_last in Hlast.
    destruct (rev (map bar_Volume data)) eqn:Hrev; [ | discriminate ].
    apply (f_equal (@rev Q)) in Hrev. rewrite rev_involutive in Hrev.
    simpl in Hrev. rewrite Hrev in Hmean. discriminate.
Qed.

Lemma volume_analysis_zero_mean_witness :
  exists va,
    enhanced_volume_analysis halted_bars = Returned va /\
    volume_surge va = Some 1 /\
    volume_trend va = Some 1 /\
    is_strong_volume va = false.
Proof.
  apply (volume_analysis_zero_mean halted_bars (0 / 3)).
  - reflexivity.
  - reflexivity.
Defined.

(** ** Session resolver *)

(** Claim C8.  The resolver reports the overnight US session (18:30 to
    01:00 Dubai time) as open at 23:59 and at 00:30 and as closed at 10:00,
    whatever the seconds and microseconds of the clock. *)
Theorem overnight_session_resolved (s us : Z) :
  us_session (get_optimal_trading_sessions (mkDateTime 23 59 s us)) = true /\
  us_session (get_optimal_trading_sessions (mkDateTime 0 30 s us)) = true /\
  us_session (get_optimal_trading_sessions (mkDateTime 10 0 s us)) = false.
Proof.
  unfold get_optimal_trading_sessions. cbn [us_session hour].
  repeat split; reflexivity.
Qed.

(** ** Entry confirmation *)

Lemma confirmation_count_filter (c : Confirmations) :
  confirmation_count c =
  List.length (filter (fun b : bool => b)
                 [volume_strong c; bias_aligned c; market_suitable c;
                  conf_volume_surge c]).
Proof.
  destruct c as [[ | ] [ | ] [ | ] [ | ]]; reflexivity.
Qed.

Lemma confirmation_count_le_4 (c : Confirmations) : (confirmation_count c <= 4)%nat.
Proof.
  destruct c as [[ | ] [ | ] [ | ] [ | ]]; cbv; lia.
Qed.

Section EntryProperties.

Variable float_repr : Q -> string.
Variable opening_ranges : RangeTable.
Variable fetched : option (list Bar).
Variable ind : Indicators.
Variable bias : Outcome BiasAnalysis.
Variable symbol : string.
Variables current_price cur_volume : Q.

Variable data : list Bar.
Variable orb : OpeningRange.
Hypothesis Hdata : get_stock_data fetched = Some data.
Hypothesis Hrange : lookup symbol opening_ranges = Some orb.

(** Claim C4.  With a breakout above the range high or below the range
    low, fewer than 3 true flags among the 4 confirmations make the engine
    return no proposal, and the text it returns carries the number of
    true flags. *)
Theorem quorum_rejects_below_three
    (Hbreak : orh orb < current_price \/ current_price < orl orb)
    (Hfew : (confirmation_count (flags_of_call ind data bias) < 3)%nat) :
  enhanced_entry_conditions float_repr opening_ranges fetched ind bias
    symbol current_price cur_volume
  = (None,
     ("Entry conditions not met ("
        ++ str_nat (List.length
             (filter (fun b : bool => b)
                [volume_strong (flags_of_call ind data bias);
                 bias_aligned (flags_of_call ind data bias);
                 market_suitable (flags_of_call ind data bias);
                 conf_volume_surge (flags_of_call ind data bias)]))
        ++ "/4 confirmations)")%string).
Proof.
  rewrite <- confirmation_count_filter.
  unfold enhanced_entry_conditions, flags_of_call in *.
  rewrite Hdata, Hrange.
  destruct (get_market_condition ind) as [mc rr]. cbn [fst] in Hfew |- *.
  apply Nat.leb_gt in Hfew.
  destruct Hbreak as [Hup | Hdown].
  - apply Qlt_bool_iff in Hup. rewrite Hup, Hfew. reflexivity.
  - apply Qlt_bool_iff in Hdown. rewrite Hdown.
    destruct (Qlt_bool (orh orb) current_price); rewrite Hfew; reflexivity.
Qed.


End EntryProperties.

Lemma quorum_rejects_below_three_witness :
  enhanced_entry_conditions (fun _ => "2.5"%string)
    (opening_ranges (sample_bot EnhancedORB)) (Some sample_frame)
    sample_indicators (Returned bias_neutral) "AAPL" 10.2 1000
  = (None, "Entry conditions not met (2/4 confirmations)"%string).
Proof.
  apply (quorum_rejects_below_three (fun _ => "2.5"%string)
           (opening_ranges (sample_bot EnhancedORB)) (Some sample_frame)
           sample_indicators (Returned bias_neutral) "AAPL" 10.2 1000
           sample_frame (mkOpeningRange "AAPL" 9.95 9.5 0.45 (Some 400) "t0")).
  - reflexivity.
  - reflexivity.
  - left. reflexivity.
  - vm_compute. lia.
Defined.


(** ** Daily risk governor *)

(** Claim C5.  Whatever the proposal, [execute_trade] fails with a reason
    and leaves the bot as it was (no trade created, no counter changed) when
    the day's trade count has reached [max_trades_per_day] or the absolute
    daily P&L has reached [account_size * max_daily_loss]. *)
Theorem execute_trade_rejects_at_limits
    (bot : Bot) (sym : string) (td : TradeData) (epoch : Z) (now : string)
    (Hlimit : (max_trades_per_day bot <= trades_today (daily_stats bot))%Z \/
              account_size bot * max_daily_loss bot
                <= Qabs (daily_pnl (daily_stats bot))) :
  exists reason,
    execute_trade bot sym td epoch now = (bot, (false, reason)) /\
    (reason = "Daily trade limit reached"%string \/
     reason = "Daily loss limit reached"%string).
Proof.
  unfold execute_trade. cbv zeta.
  destruct (max_trades_per_day bot <=? trades_today (daily_stats bot))%Z eqn:Hcount.
  - eexists. split; [ reflexivity | left; reflexivity ].
  - destruct Hlimit as [Hmax | Hloss].
    + apply Z.leb_le in Hmax. congruence.
    + apply Qle_bool_iff in Hloss. rewrite Hloss.
      eexists. split; [ reflexivity | right; reflexivity ].
Qed.

Lemma execute_trade_rejects_at_limits_witness :
  exists reason,
    execute_trade sample_bot_at_limit "AAPL" sample_proposal 1700000000 "t1"
    = (sample_bot_at_limit, (false, reason)) /\
    (reason = "Daily trade limit reached"%string \/
     reason = "Daily loss limit reached"%string).
Proof.
  apply (execute_trade_rejects_at_limits sample_bot_at_limit "AAPL"
           sample_proposal 1700000000 "t1").
  left. vm_compute. discriminate.
Defined.

(** ** Statistics on close *)

Lemma history_pnls_app (h : list Trade) (ps : list Q) (t : Trade) (c : Closing) :
  history_pnls h = Some ps -> closing t = Some c ->
  history_pnls (h ++ [t]) = Some (ps ++ [pnl c]).
Proof.
  revert ps. induction h as [ | x h IH ]; intros ps Hh Ht; simpl in *.
  - injection Hh as <-. rewrite Ht. reflexivity.
  - destruct (closing x) as [cx | ]; [ | discriminate ].
    destruct (history_pnls h) as [qs | ]; [ | discriminate ].
    injection Hh as <-. rewrite (IH qs eq_refl Ht). reflexivity.
Qed.

Lemma history_pnls_length (h : list Trade) (ps : list Q) :
  history_pnls h = Some ps -> List.length ps = List.length h.
Proof.
  revert ps. induction h as [ | x h IH ]; intros ps Hh; simpl in *.
  - injection Hh as <-. reflexivity.
  - destruct (closing x); [ | discriminate ].
    destruct (history_pnls h) as [qs | ]; [ | discriminate ].
    injection Hh as <-. simpl. rewrite (IH qs eq_refl). reflexivity.
Qed.



(** ** Dictionary lemmas *)

Section Dictionary.

Context {A : Type}.

Lemma lookup_update_key_eq (k : string) (f : A -> A) (m : list (string * A)) :
  lookup k (update_key k f m) = option_map f (lookup k m).
Proof.
  induction m as [ | [k' v] m IH ]; simpl; [ reflexivity | ].
  destruct (String.eqb k k') eqn:E; simpl; rewrite E; [ reflexivity | exact IH ].
Qed.

Lemma lookup_update_key_neq (k k' : string) (f : A -> A) (m : list (string * A)) :
  k <> k' -> lookup k' (update_key k f m) = lookup k' m.
Proof.
  intro Hne. induction m as [ | [k0 v] m IH ]; simpl; [ reflexivity | ].
  destruct (String.eqb k k0) eqn:E; simpl.
  - apply String.eqb_eq in E. subst k0.
    apply not_eq_sym, String.eqb_neq in Hne. rewrite Hne. reflexivity.
  - rewrite IH. reflexivity.
Qed.

Lemma lookup_remove_key_eq (k : string) (m : list (string * A)) :
  lookup k (remove_key k m) = None.
Proof.
  induction m as [ | [k' v] m IH ]; simpl; [ reflexivity | ].
  destruct (String.eqb k k') eqn:E; simpl; [ exact IH | ].
  rewrite E. exact IH.
Qed.

Lemma lookup_remove_key_neq (k k' : string) (m : list (string * A)) :
  k <> k' -> lookup k' (remove_key k m) = lookup k' m.
Proof.
  intro Hne. induction m as [ | [k0 v] m IH ]; simpl; [ reflexivity | ].
  destruct (String.eqb k k0) eqn:E; simpl.
  - apply String.eqb_eq in E. subst k0.
    apply not_eq_sym, String.eqb_neq in Hne. rewrite Hne. exact IH.
  - rewrite IH. reflexivity.
Qed.

End Dictionary.

(** ** Partial exits *)

Lemma int_mul_half_floor (n : Z) : (0 <= n)%Z -> int_mul_half n = floor_mul n 0.5.
Proof.
  intro Hn. unfold int_mul_half, floor_mul, Qfloor. simpl.
  rewrite Z.quot_div_nonneg by lia.
  change 10%Z with (2 * 5)%Z. rewrite Z.div_mul_cancel_r by lia. reflexivity.
Qed.

Lemma int_mul_quarter_floor (n : Z) :
  (0 <= n)%Z -> int_mul_quarter n = floor_mul n 0.25.
Proof.
  intro Hn. unfold int_mul_quarter, floor_mul, Qfloor. simpl.
  rewrite Z.quot_div_nonneg by lia.
  change 100%Z with (4 * 25)%Z. rewrite Z.div_mul_cancel_r by lia. reflexivity.
Qed.

(** Two exits in a row leave one eighth of the size. *)
Lemma second_exit_leaves_eighth (n : Z) :
  (0 <= n)%Z -> int_mul_quarter (int_mul_half n) = floor_mul n 0.125.
Proof.
  intro Hn. unfold int_mul_quarter, int_mul_half, floor_mul, Qfloor. simpl.
  rewrite (Z.quot_div_nonneg n 2) by lia.
  rewrite Z.quot_div_nonneg by (try apply Z.div_pos; lia).
  rewrite Z.div_div by lia.
  change 1000%Z with (8 * 125)%Z. rewrite Z.div_mul_cancel_r by lia.
  reflexivity.
Qed.

(** The first partial exit leaves floor(size * 0.5); the second leaves a
    quarter of the size it finds, which is the size after the first exit. *)
Lemma hit_take_profit_sizes (bot : Bot) (trade_id : string) (t : Trade) :
  lookup trade_id (active_trades bot) = Some t ->
  (0 <= position_size t)%Z ->
  option_map position_size
    (lookup trade_id
       (active_trades (outcome_value (hit_take_profit bot trade_id 1))))
  = Some (floor_mul (position_size t) 0.5) /\
  option_map position_size
    (lookup trade_id
       (active_trades (outcome_value (hit_take_profit bot trade_id 2))))
  = Some (floor_mul (position_size t) 0.25).
Proof.
  intros Hactive Hsize. unfold hit_take_profit. rewrite Hactive.
  cbn [Z.eqb Pos.eqb].
  split; destruct (bot_class bot); rewrite ?outcome_value_returned_if;
    cbn [outcome_value set_active set_trades active_trades];
    rewrite lookup_update_key_eq, Hactive; cbn;
    rewrite ?int_mul_half_floor, ?int_mul_quarter_floor by assumption;
    reflexivity.
Qed.

(** Claim C1, on a position of 100 shares in either bot.  The first
    take-profit leaves 50 shares, which is floor(100 * 0.5); the second
    leaves 12 shares, a quarter of those 50, where floor(100 * 0.25) is 25. *)
Theorem take_profit_sizes_on_100_shares (c : BotClass) :
  let entered := sample_entered c in
  let after_tp1 := monitor_ticks entered [(feed_at 11.6, "t2"%string)] in
  let after_tp2 :=
    monitor_ticks entered
      [(feed_at 11.6, "t2"%string); (feed_at 12.2, "t3"%string)] in
  sample_size entered = Some 100%Z /\
  sample_size after_tp1 = Some 50%Z /\
  floor_mul 100 0.5 = 50%Z /\
  sample_size after_tp2 = Some 12%Z /\
  floor_mul 100 0.25 = 25%Z /\
  sample_size after_tp2 <> Some (floor_mul 100 0.25).
Proof.
  destruct c; vm_compute; repeat split; discriminate.
Qed.

(** ** Achieved risk:reward *)

(** The sample trade, entered with 100 shares, halved at its first target
    and closed at its third: the recorded risk:reward is not the P&L over
    the risk of the 100 shares held at entry. *)
Lemma actual_rr_not_on_entry_size :
  exists t,
    sample_size (sample_entered EnhancedORB) = Some 100%Z /\
    trades_history
      (monitor_ticks (sample_entered EnhancedORB)
         [(feed_at 11.6, "t2"%string); (feed_at 11, "t3"%string)]) = [t] /\
    ~ rr_on_entry_size 100 t.
Proof.
  eexists. split; [ vm_compute; reflexivity | ].
  split; [ vm_compute; reflexivity | ].
  intros (c & r & Hc & Hr & Heq).
  cbn [closing] in Hc. injection Hc as <-.
  cbn [actual_rr] in Hr. injection Hr as <-.
  vm_compute in Heq. discriminate.
Qed.

(** Claim C2, amended.  On close the enhanced bot records as achieved
    risk:reward the P&L over |entry - original stop| times the size that
    the position has at the close, and 0 when that product is not
    positive; the P&L is taken on the same size. *)
Theorem close_trade_records_rr
    (bot : Bot) (trade_id : string) (t : Trade) (exit : Q) (reason now : string)
    (Hclass : bot_class bot = EnhancedORB)
    (Hactive : lookup trade_id (active_trades bot) = Some t) :
  let bot' := outcome_value (close_trade bot trade_id exit reason now) in
  let d := Qabs (entry_price t - stop_loss t) * inject_Z (position_size t) in
  exists t' c r,
    trades_history bot' = trades_history bot ++ [t'] /\
    lookup trade_id (active_trades bot') = None /\
    status t' = CLOSED /\
    closing t' = Some c /\
    pnl c = trade_pnl t exit /\
    actual_rr c = Some r /\
    (0 < d -> r == pnl c / d) /\
    (d <= 0 -> r == 0).
Proof.
  intros bot' d. subst bot'. unfold close_trade. rewrite Hactive, Hclass.
  cbv zeta.
  set (t' := set_closed t _).
  exists t'. eexists. exists (close_actual_rr t exit).
  split;
    [ destruct (history_pnls _); rewrite ?outcome_value_returned_if;
      reflexivity | ].
  split;
    [ destruct (history_pnls _); rewrite ?outcome_value_returned_if; cbn;
      apply lookup_remove_key_eq | ].
  split; [ reflexivity | ]. split; [ reflexivity | ].
  split; [ reflexivity | ]. split; [ reflexivity | ].
  unfold close_actual_rr, close_risk_amount. fold d. cbn [pnl].
  split; intro Hd.
  - apply Qlt_bool_iff in Hd. rewrite Hd. reflexivity.
  - apply Qlt_bool_false_iff in Hd. rewrite Hd. reflexivity.
Qed.

Lemma close_trade_records_rr_witness :
  let bot := monitor_ticks (sample_entered EnhancedORB)
               [(feed_at 11.6, "t2"%string)] in
  let bot' := outcome_value
                (close_trade bot sample_trade_id 11 "Target 3 Hit" "t3") in
  exists t' c r,
    trades_history bot' = trades_history bot ++ [t'] /\
    lookup sample_trade_id (active_trades bot') = None /\
    status t' = CLOSED /\
    closing t' = Some c /\
    pnl c = (11 - 10.0000) * inject_Z 50 /\
    actual_rr c = Some r /\
    (0 < Qabs (10.0000 - 9.400) * inject_Z 50 ->
     r == pnl c / (Qabs (10.0000 - 9.400) * inject_Z 50)) /\
    (Qabs (10.0000 - 9.400) * inject_Z 50 <= 0 -> r == 0).
Proof.
  intros bot bot'.
  exact (close_trade_records_rr bot sample_trade_id sample_halved_trade
           11 "Target 3 Hit" "t3" eq_refl eq_refl).
Defined.

(** ** The stop only tightens *)

Lemma tightened_refl (t : Trade) : tightened t t.
Proof.
  unfold tightened. repeat split. destruct (direction t); apply Qle_refl.
Qed.

Lemma tightened_trans (t1 t2 t3 : Trade) :
  tightened t1 t2 -> tightened t2 t3 -> tightened t1 t3.
Proof.
  intros (Hd1 & He1 & Hs1 & Hc1) (Hd2 & He2 & Hs2 & Hc2).
  unfold tightened. rewrite Hd2, He2, Hs2.
  repeat split; try assumption.
  rewrite Hd1 in Hc2.
  destruct (direction t1); eapply Qle_trans; eassumption.
Qed.

Lemma tightened_set_tp1 (t : Trade) (n : Z) : tightened t (set_tp1 t n).
Proof.
  unfold tightened. cbn. repeat split. destruct (direction t); apply Qle_refl.
Qed.

Lemma tightened_set_tp2 (t : Trade) (n : Z) : tightened t (set_tp2 t n).
Proof.
  unfold tightened. cbn. repeat split. destruct (direction t); apply Qle_refl.
Qed.

(** The breakeven block moves the stop only when the entry price is on the
    tight side of it. *)
Lemma tightened_trail_stop (t : Trade) : tightened t (trail_stop t).
Proof.
  unfold trail_stop.
  destruct (tp1_hit t && negb (tp2_hit t)); [ | apply tightened_refl ].
  destruct (direction t) eqn:Hdir.
  - destruct (Qlt_bool (current_stop t) (entry_price t)) eqn:Hlt;
      [ | apply tightened_refl ].
    apply Qlt_bool_iff in Hlt.
    unfold tightened. cbn. rewrite Hdir. repeat split.
    apply Qlt_le_weak, Hlt.
  - destruct (Qlt_bool (entry_price t) (current_stop t)) eqn:Hlt;
      [ | apply tightened_refl ].
    apply Qlt_bool_iff in Hlt.
    unfold tightened. cbn. rewrite Hdir. repeat split.
    apply Qlt_le_weak, Hlt.
Qed.

Lemma stops_tightened_refl (b : Bot) : stops_tightened b b.
Proof.
  intros k t' H. exists t'. split; [ exact H | apply tightened_refl ].
Qed.

Lemma stops_tightened_trans (b1 b2 b3 : Bot) :
  stops_tightened b1 b2 -> stops_tightened b2 b3 -> stops_tightened b1 b3.
Proof.
  intros H12 H23 k t3 H3.
  destruct (H23 k t3 H3) as (t2 & H2 & T23).
  destruct (H12 k t2 H2) as (t1 & H1 & T12).
  exists t1. split; [ exact H1 | ]. eapply tightened_trans; eassumption.
Qed.

(** Mutating one object by a tightening function tightens the table. *)
Lemma stops_tightened_update
    (b : Bot) (k : string) (f : Trade -> Trade)
    (history : list Trade) (stats : DailyStats) :
  (forall t, tightened t (f t)) ->
  stops_tightened b
    (set_trades b (update_key k f (active_trades b)) history stats).
Proof.
  intros Hf k' t' H. cbn [set_trades active_trades] in H.
  destruct (string_dec k k') as [ <- | Hne ].
  - rewrite lookup_update_key_eq in H.
    destruct (lookup k (active_trades b)) as [t | ]; [ | discriminate ].
    injection H as <-. exists t. split; [ reflexivity | apply Hf ].
  - rewrite lookup_update_key_neq in H by assumption.
    exists t'. split; [ exact H | apply tightened_refl ].
Qed.

(** Deleting a key leaves the other trades as they were. *)
Lemma stops_tightened_remove
    (b : Bot) (k : string) (history : list Trade) (stats : DailyStats) :
  stops_tightened b
    (set_trades b (remove_key k (active_trades b)) history stats).
Proof.
  intros k' t' H. cbn [set_trades active_trades] in H.
  destruct (string_dec k k') as [ <- | Hne ].
  - rewrite lookup_remove_key_eq in H. discriminate.
  - rewrite lookup_remove_key_neq in H by assumption.
    exists t'. split; [ exact H | apply tightened_refl ].
Qed.

Lemma stops_tightened_hit_take_profit (b : Bot) (k : string) (level : Z) :
  stops_tightened b (outcome_value (hit_take_profit b k level)).
Proof.
  unfold hit_take_profit.
  destruct (lookup k (active_trades b)); [ | apply stops_tightened_refl ].
  destruct (level =? 1)%Z; [ | destruct (level =? 2)%Z ];
    [ | | apply stops_tightened_refl ];
    destruct (bot_class b); rewrite ?outcome_value_returned_if;
    cbn [outcome_value]; unfold set_active;
    apply stops_tightened_update; intro x;
    first [ apply tightened_set_tp1 | apply tightened_set_tp2 ].
Qed.

Lemma stops_tightened_close_trade
    (b : Bot) (k : string) (exit : Q) (reason now : string) :
  stops_tightened b (outcome_value (close_trade b k exit reason now)).
Proof.
  unfold close_trade.
  destruct (lookup k (active_trades b)); [ | apply stops_tightened_refl ].
  cbv zeta. destruct (bot_class b); [ destruct (history_pnls _) | ];
    rewrite ?outcome_value_returned_if; cbn [outcome_value];
    apply stops_tightened_remove.
Qed.

Lemma stops_tightened_trail_stop_object (b : Bot) (k : string) :
  stops_tightened b (trail_stop_object b k).
Proof.
  unfold trail_stop_object.
  destruct (lookup k (active_trades b)).
  - unfold set_active. apply stops_tightened_update, tightened_trail_stop.
  - intros k' t' H. exists t'. split; [ exact H | apply tightened_refl ].
Qed.

Lemma stops_tightened_check_targets
    (b : Bot) (k : string) (t : Trade) (price : Q) (now : string) :
  stops_tightened b (check_targets b k t price now).
Proof.
  unfold check_targets.
  destruct (negb (tp1_hit t) && reached t price (target1 t));
    [ apply stops_tightened_hit_take_profit | ].
  destruct (negb (tp2_hit t) && reached t price (target2 t));
    [ apply stops_tightened_hit_take_profit | ].
  destruct (reached t price (target3 t));
    [ apply stops_tightened_close_trade | apply stops_tightened_refl ].
Qed.

Lemma stops_tightened_monitor_iteration
    (feed : Feed) (now : string) (b : Bot) (k : string) :
  stops_tightened b (monitor_iteration feed now b k).
Proof.
  unfold monitor_iteration.
  destruct (lookup k (active_trades b)) as [t | ];
    [ | apply stops_tightened_refl ].
  destruct (current_price_of feed (symbol t)) as [price | ];
    [ | apply stops_tightened_refl ].
  destruct (stop_hit t price); [ apply stops_tightened_close_trade | ].
  eapply stops_tightened_trans;
    [ apply stops_tightened_check_targets
    | apply stops_tightened_trail_stop_object ].
Qed.

Lemma stops_tightened_iterations
    (feed : Feed) (now : string) (ids : list string) (b : Bot) :
  stops_tightened b (fold_left (monitor_iteration feed now) ids b).
Proof.
  revert b. induction ids as [ | k ids IH ]; intro b; simpl.
  - apply stops_tightened_refl.
  - eapply stops_tightened_trans;
      [ apply stops_tightened_monitor_iteration | apply IH ].
Qed.

Lemma stops_tightened_monitor_active_trades
    (b : Bot) (feed : Feed) (now : string) :
  stops_tightened b (monitor_active_trades b feed now).
Proof.
  unfold monitor_active_trades. apply stops_tightened_iterations.
Qed.

Lemma stops_tightened_monitor_ticks (ticks : list (Feed * string)) (b : Bot) :
  stops_tightened b (monitor_ticks b ticks).
Proof.
  unfold monitor_ticks. revert b.
  induction ticks as [ | tick ticks IH ]; intro b; simpl.
  - apply stops_tightened_refl.
  - eapply stops_tightened_trans;
      [ apply stops_tightened_monitor_active_trades | apply IH ].
Qed.

(** Claim C3.  Over any run of monitoring ticks, a trade that is still
    active keeps its direction, and its [current_stop] has not decreased if
    it is LONG and has not increased if it is SHORT. *)
Theorem current_stop_only_tightens
    (bot : Bot) (ticks : list (Feed * string))
    (trade_id : string) (t t' : Trade)
    (Hbefore : lookup trade_id (active_trades bot) = Some t)
    (Hafter : lookup trade_id (active_trades (monitor_ticks bot ticks)) = Some t') :
  direction t' = direction t /\
  (direction t = LONG -> current_stop t <= current_stop t') /\
  (direction t = SHORT -> current_stop t' <= current_stop t).
Proof.
  destruct (stops_tightened_monitor_ticks ticks bot trade_id t' Hafter)
    as (t0 & Ht0 & Hd & _ & _ & Hstop).
  rewrite Hbefore in Ht0. injection Ht0 as <-.
  split; [ exact Hd | ].
  split; intro Hdir; rewrite Hdir in Hstop; exact Hstop.
Qed.

Lemma current_stop_only_tightens_witness :
  exists t t',
    lookup sample_trade_id (active_trades (sample_entered EnhancedORB)) = Some t /\
    lookup sample_trade_id
      (active_trades
         (monitor_ticks (sample_entered EnhancedORB)
            [(feed_at 11.6, "t2"%string)])) = Some t' /\
    current_stop t == 9.4 /\
    current_stop t' == 10 /\
    direction t' = direction t /\
    (direction t = LONG -> current_stop t <= current_stop t') /\
    (direction t = SHORT -> current_stop t' <= current_stop t).
Proof.
  eexists. eexists.
  split; [ reflexivity | ]. split; [ reflexivity | ].
  split; [ reflexivity | ]. split; [ reflexivity | ].
  apply (current_stop_only_tightens (sample_entered EnhancedORB)
           [(feed_at 11.6, "t2"%string)] sample_trade_id).
  - reflexivity.
  - reflexivity.
Defined.

(* ================================================================== *)
(** * Further properties of the engine *)

(** ** Market condition *)

(** Property X1.
    The target risk:reward is fixed by the label and stays within
    [min_risk_reward = 2.0] and [max_risk_reward = 5.0]. *)
Theorem market_condition_target_rr (ind : Indicators) :
  snd (get_market_condition ind)
  = match fst (get_market_condition ind) with
    | WEAK => 2.0
    | NORMAL => 2.5
    | TRENDING => 3.0
    | HIGH_VOLATILITY => 4.0
    end /\
  2.0 <= snd (get_market_condition ind) /\
  snd (get_market_condition ind) <= 5.0.
Proof.
  unfold get_market_condition.
  destruct (atr_empty ind);
    [ | destruct (_ && _); [ | destruct (_ && _); [ | destruct (fgt_scaled _ _ _) ] ] ];
    cbn [fst snd]; (split; [ reflexivity | split; discriminate ]).
Qed.

(** Property X2.
    An ATR that is NaN (a frame shorter than the rolling window) reads as a
    WEAK market, which fails the [market_suitable] confirmation. *)
Theorem market_condition_nan_is_weak
    (ind : Indicators)
    (Hseries : atr_empty ind = false)
    (Hnan : current_atr ind = None \/ avg_atr ind = None) :
  get_market_condition ind = (WEAK, 2.0) /\
  market_is_suitable (fst (get_market_condition ind)) = false.
Proof.
  assert (Hscaled : forall k, fgt_scaled (current_atr ind) (avg_atr ind) k = false).
  { intro k. unfold fgt_scaled.
    destruct Hnan as [ -> | -> ]; [ reflexivity | ].
    destruct (current_atr ind); reflexivity. }
  unfold get_market_condition. rewrite Hseries, !Hscaled. cbn.
  split; reflexivity.
Qed.

Lemma market_condition_nan_is_weak_witness :
  get_market_condition short_frame_indicators = (WEAK, 2.0) /\
  market_is_suitable (fst (get_market_condition short_frame_indicators)) = false.
Proof.
  apply (market_condition_nan_is_weak short_frame_indicators).
  - reflexivity.
  - left. reflexivity.
Defined.

(** ** Volume confirmations *)

(** Property X3.
    The two volume confirmations are not independent: whenever
    [volume_strong] holds for a frame, so does [volume_surge]. *)
Theorem strong_volume_implies_surge
    (ind : Indicators) (data : list Bar) (bias : Outcome BiasAnalysis)
    (Hstrong : volume_strong (flags_of_call ind data bias) = true) :
  conf_volume_surge (flags_of_call ind data bias) = true.
Proof.
  unfold flags_of_call, entry_confirmations in *.
  cbn [volume_strong conf_volume_surge] in *.
  destruct (enhanced_volume_analysis data) as [va | va] eqn:Hva;
    unfold enhanced_volume_analysis in Hva;
    destruct (iloc_last (map bar_Volume data)) as [cur | ];
    try discriminate; injection Hva as <-; cbn in Hstrong |- *;
    try discriminate.
  apply andb_prop in Hstrong. destruct Hstrong as [Hsurge _].
  destruct (if fgt _ 0 then _ else _) as [x | ]; cbn in *; [ | discriminate ].
  apply Qle_bool_iff in Hsurge. apply Qle_bool_iff. lra.
Qed.

Lemma strong_volume_implies_surge_witness :
  conf_volume_surge (flags_of_call sample_indicators surge_bars sample_bias)
  = true.
Proof.
  apply (strong_volume_implies_surge sample_indicators surge_bars sample_bias).
  reflexivity.
Defined.

(** ** Higher-timeframe bias *)

(** Property X4.
    The bias counts as aligned only when both frames were fetched and both
    labels are the same BULLISH or BEARISH; two NEUTRAL labels never do. *)
Theorem aligned_bias_is_directional
    (fetched_15m fetched_1h : option (list Bar)) (ema_15m ema_1h : pyfloat)
    (Haligned :
       aligned (outcome_value
                  (get_higher_timeframe_bias fetched_15m fetched_1h
                     ema_15m ema_1h)) = true) :
  let ba := outcome_value
              (get_higher_timeframe_bias fetched_15m fetched_1h
                 ema_15m ema_1h) in
  bias_15m ba = bias_1h ba /\ bias_15m ba <> NEUTRAL /\
  get_stock_data fetched_15m <> None /\ get_stock_data fetched_1h <> None.
Proof.
  cbv zeta. unfold get_higher_timeframe_bias in *.
  destruct (get_stock_data fetched_15m) as [d15 | ];
    [ | cbn in Haligned; discriminate ].
  destruct (get_stock_data fetched_1h) as [d1h | ];
    [ | cbn in Haligned; discriminate ].
  destruct (iloc_last (map bar_Close d15)) as [price | ];
    [ | cbn in Haligned; discriminate ].
  cbn in Haligned |- *.
  destruct (above price ema_15m), (above price ema_1h);
    cbn in Haligned; try discriminate;
    repeat split; discriminate.
Qed.

Lemma aligned_bias_is_directional_witness :
  let ba := outcome_value
              (get_higher_timeframe_bias (Some sample_frame) (Some sample_frame)
                 (Some 9.9) (Some 9.7)) in
  bias_15m ba = bias_1h ba /\ bias_15m ba <> NEUTRAL /\
  get_stock_data (Some sample_frame) <> None /\
  get_stock_data (Some sample_frame) <> None.
Proof.
  apply (aligned_bias_is_directional (Some sample_frame) (Some sample_frame)
           (Some 9.9) (Some 9.7)).
  reflexivity.
Defined.

(** ** Opening range storage *)

Lemma lookup_assign_neq {A} (k k' : string) (v : A) (m : list (string * A)) :
  k <> k' -> lookup k' (assign k v m) = lookup k' m.
Proof.
  intro Hne. assert (Hkk : String.eqb k' k = false).
  { apply String.eqb_neq. congruence. }
  induction m as [ | [k0 v0] m IH ]; simpl.
  - rewrite Hkk. reflexivity.
  - destruct (String.eqb k k0) eqn:E; simpl.
    + apply String.eqb_eq in E. subst k0. rewrite Hkk. reflexivity.
    + rewrite IH. reflexivity.
Qed.

(** Property X5.
    Computing a range touches only the entry of its own symbol, and
    nothing at all when no bars come back. *)
Theorem calculate_opening_range_frame
    (bot : Bot) (symbol now other : string) (fetched : option (list Bar))
    (Hother : symbol <> other) :
  let bot' := fst (calculate_opening_range bot symbol now fetched) in
  lookup other (opening_ranges bot') = lookup other (opening_ranges bot) /\
  active_trades bot' = active_trades bot /\
  trades_history bot' = trades_history bot /\
  daily_stats bot' = daily_stats bot /\
  (get_stock_data fetched = None ->
   calculate_opening_range bot symbol now fetched = (bot, None)).
Proof.
  cbv zeta. unfold calculate_opening_range.
  destruct (opening_range_of symbol now fetched) as [r | ] eqn:Hr; cbn.
  - rewrite lookup_assign_neq by assumption.
    repeat split. intro Hnone. unfold opening_range_of in Hr.
    rewrite Hnone in Hr. discriminate.
  - repeat split.
Qed.

Lemma calculate_opening_range_frame_witness :
  let bot' := fst (calculate_opening_range (sample_bot EnhancedORB) "MSFT" "t0"
                     (Some sample_bars)) in
  lookup "AAPL" (opening_ranges bot')
  = lookup "AAPL" (opening_ranges (sample_bot EnhancedORB)) /\
  active_trades bot' = active_trades (sample_bot EnhancedORB) /\
  trades_history bot' = trades_history (sample_bot EnhancedORB) /\
  daily_stats bot' = daily_stats (sample_bot EnhancedORB) /\
  (get_stock_data (Some sample_bars) = None ->
   calculate_opening_range (sample_bot EnhancedORB) "MSFT" "t0"
     (Some sample_bars) = (sample_bot EnhancedORB, None)).
Proof.
  apply (calculate_opening_range_frame (sample_bot EnhancedORB) "MSFT" "t0"
           "AAPL" (Some sample_bars)).
  discriminate.
Defined.

Lemma opening_range_encloses_window_witness :
  orl (mkOpeningRange "AAPL" 105 99 (105 - 99) (Some (3400 # 3)) "t0")
    <= bar_Low (mkBar 102 105 101 104 1500) /\
  bar_High (mkBar 102 105 101 104 1500)
    <= orh (mkOpeningRange "AAPL" 105 99 (105 - 99) (Some (3400 # 3)) "t0").
Proof.
  apply (opening_range_encloses_window "AAPL" "t0" (Some sample_bars)
           sample_bars).
  - reflexivity.
  - reflexivity.
  - right. left. reflexivity.
Defined.

(** ** Entry proposals *)

Section ProposalProperties.

Variable float_repr : Q -> string.
Variable ranges : RangeTable.
Variable fetched : option (list Bar).
Variable ind : Indicators.
Variable bias : Outcome BiasAnalysis.
Variable symbol : string.
Variables current_price cur_volume : Q.

(** Property X7.
    A proposal is returned only for a breakout that gathered at least 3
    confirmations: LONG above the range high, SHORT below the range low;
    it carries the flags and the market condition of the call. *)
Theorem proposal_only_on_confirmed_breakout
    (td : TradeData) (msg : string)
    (Hentry : enhanced_entry_conditions float_repr ranges fetched ind bias
                symbol current_price cur_volume = (Some td, msg)) :
  exists data orb,
    get_stock_data fetched = Some data /\
    lookup symbol ranges = Some orb /\
    td_confirmations td = flags_of_call ind data bias /\
    (3 <= confirmation_count (td_confirmations td))%nat /\
    td_market_condition td = fst (get_market_condition ind) /\
    td_target_rr td = snd (get_market_condition ind) /\
    match td_direction td with
    | LONG => orh orb < current_price
    | SHORT => current_price < orl orb /\ current_price <= orh orb
    end.
Proof.
  unfold enhanced_entry_conditions in Hentry.
  destruct (get_stock_data fetched) as [data | ]; [ | discriminate ].
  destruct (get_market_condition ind) as [mc rr] eqn:Hmc.
  destruct (lookup symbol ranges) as [orb | ]; [ | discriminate ].
  exists data, orb. split; [ reflexivity | ]. split; [ reflexivity | ].
  unfold flags_of_call. rewrite Hmc. cbn [fst snd].
  destruct (Qlt_bool (orh orb) current_price) eqn:Hup.
  - destruct (3 <=? _)%nat eqn:Hq; [ | discriminate ].
    injection Hentry as <- _. cbn.
    apply Nat.leb_le in Hq. apply Qlt_bool_iff in Hup.
    repeat split; assumption.
  - destruct (Qlt_bool current_price (orl orb)) eqn:Hdown; [ | discriminate ].
    destruct (3 <=? _)%nat eqn:Hq; [ | discriminate ].
    injection Hentry as <- _. cbn.
    apply Nat.leb_le in Hq. apply Qlt_bool_iff in Hdown.
    apply Qlt_bool_false_iff in Hup.
    repeat split; assumption.
Qed.


End ProposalProperties.

Lemma proposal_only_on_confirmed_breakout_witness :
  exists data orb,
    get_stock_data (Some sample_frame) = Some data /\
    lookup "MSFT" sample_ranges_105 = Some orb /\
    td_confirmations sample_proposal_105
    = flags_of_call sample_indicators data sample_bias /\
    (3 <= confirmation_count (td_confirmations sample_proposal_105))%nat /\
    td_market_condition sample_proposal_105
    = fst (get_market_condition sample_indicators) /\
    td_target_rr sample_proposal_105
    = snd (get_market_condition sample_indicators) /\
    match td_direction sample_proposal_105 with
    | LONG => orh orb < 106
    | SHORT => 106 < orl orb /\ 106 <= orh orb
    end.
Proof.
  apply (proposal_only_on_confirmed_breakout (fun _ => "2.5"%string)
           sample_ranges_105 (Some sample_frame) sample_indicators sample_bias
           "MSFT" 106 1000 sample_proposal_105
           "Enhanced entry confirmed: NORMAL market, 2.5:1 R:R").
  reflexivity.
Defined.


(** ** Position sizing *)

Lemma Qle_bool_false_iff' (x y : Q) : y < x -> Qle_bool x y = false.
Proof.
  intro H. destruct (Qle_bool x y) eqn:E; [ | reflexivity ].
  apply Qle_bool_iff in E. exfalso. exact (Qlt_not_le _ _ H E).
Qed.



Lemma Qdiv_nonneg (a b : Q) : 0 <= a -> 0 < b -> 0 <= a / b.
Proof.
  intros Ha Hb. apply Qle_shift_div_l; [ exact Hb | ]. lra.
Qed.





(** ** Trade execution *)

(** Property X10.
    Within the daily limits, a proposal whose stop coincides with its
    entry, or whose entry price is 0, is refused as too small and leaves
    the bot as it was. *)
Theorem execute_trade_refuses_riskless
    (bot : Bot) (sym : string) (td : TradeData) (epoch : Z) (now : string)
    (Hcount : (trades_today (daily_stats bot) < max_trades_per_day bot)%Z)
    (Hloss : Qabs (daily_pnl (daily_stats bot))
             < account_size bot * max_daily_loss bot)
    (Hflat : td_entry_price td == td_stop_loss td \/ td_entry_price td == 0) :
  execute_trade bot sym td epoch now
  = (bot, (false, "Position size too small"%string)).
Proof.
  unfold execute_trade. cbv zeta.
  apply Z.leb_gt in Hcount. rewrite Hcount.
  apply Qle_bool_false_iff' in Hloss. rewrite Hloss.
  assert (Hsize : calculate_position_size bot (td_entry_price td)
                    (td_stop_loss td) (td_market_condition td) = 0%Z).
  { unfold calculate_position_size.
    destruct (Qle_bool _ 0) eqn:Hz; [ reflexivity | ].
    destruct Hflat as [Heq | Hzero].
    - exfalso. assert (Hle : Qabs (td_entry_price td - td_stop_loss td) <= 0).
      { rewrite Heq. setoid_replace (td_stop_loss td - td_stop_loss td) with 0
          by ring. discriminate. }
      apply Qle_bool_iff in Hle. congruence.
    - apply Qeq_bool_iff in Hzero. rewrite Hzero. reflexivity. }
  rewrite Hsize. reflexivity.
Qed.

Lemma execute_trade_refuses_riskless_witness :
  execute_trade (sample_bot EnhancedORB) "AAPL" riskless_proposal
    1700000000 "t1"
  = (sample_bot EnhancedORB, (false, "Position size too small"%string)).
Proof.
  apply (execute_trade_refuses_riskless (sample_bot EnhancedORB) "AAPL"
           riskless_proposal 1700000000 "t1").
  - reflexivity.
  - reflexivity.
  - left. reflexivity.
Defined.

(** Property X11.
    The guard on the day's result compares the absolute value: a day that
    has gained [account_size * max_daily_loss] or more stops new trades
    with the reason "Daily loss limit reached". *)
Theorem execute_trade_stops_after_gain
    (bot : Bot) (sym : string) (td : TradeData) (epoch : Z) (now : string)
    (Hcount : (trades_today (daily_stats bot) < max_trades_per_day bot)%Z)
    (Hlimit : 0 <= account_size bot * max_daily_loss bot)
    (Hgain : account_size bot * max_daily_loss bot
             <= daily_pnl (daily_stats bot)) :
  execute_trade bot sym td epoch now
  = (bot, (false, "Daily loss limit reached"%string)).
Proof.
  unfold execute_trade. cbv zeta.
  apply Z.leb_gt in Hcount. rewrite Hcount.
  assert (Habs : Qle_bool (account_size bot * max_daily_loss bot)
                   (Qabs (daily_pnl (daily_stats bot))) = true).
  { apply Qle_bool_iff. rewrite Qabs_pos; [ exact Hgain | ].
    eapply Qle_trans; eassumption. }
  rewrite Habs. reflexivity.
Qed.

Lemma execute_trade_stops_after_gain_witness :
  execute_trade sample_bot_in_profit "AAPL" sample_proposal 1700000000 "t1"
  = (sample_bot_in_profit, (false, "Daily loss limit reached"%string)).
Proof.
  apply (execute_trade_stops_after_gain sample_bot_in_profit "AAPL"
           sample_proposal 1700000000 "t1").
  - reflexivity.
  - discriminate.
  - discriminate.
Defined.

(** Property X12.
    An accepted proposal was within both daily limits; it adds one to
    [trades_today] and stores, under the id made of the symbol and the
    clock, an ACTIVE trade with no target hit, a positive size and its stop
    at the proposal's stop.  Nothing else changes. *)
Theorem execute_trade_accepts
    (bot bot' : Bot) (sym msg : string) (td : TradeData) (epoch : Z)
    (now : string)
    (Hdone : execute_trade bot sym td epoch now = (bot', (true, msg))) :
  let trade_id := (sym ++ "_" ++ str_int epoch)%string in
  (trades_today (daily_stats bot) < max_trades_per_day bot)%Z /\
  Qabs (daily_pnl (daily_stats bot)) < account_size bot * max_daily_loss bot /\
  trades_today (daily_stats bot') = (trades_today (daily_stats bot) + 1)%Z /\
  daily_pnl (daily_stats bot') = daily_pnl (daily_stats bot) /\
  consecutive_losses (daily_stats bot')
  = consecutive_losses (daily_stats bot) /\
  trades_history bot' = trades_history bot /\
  opening_ranges bot' = opening_ranges bot /\
  (forall k, trade_id <> k ->
     lookup k (active_trades bot') = lookup k (active_trades bot)) /\
  exists t,
    lookup trade_id (active_trades bot') = Some t /\
    id t = trade_id /\ symbol t = sym /\
    direction t = td_direction td /\
    status t = ACTIVE /\ closing t = None /\
    tp1_hit t = false /\ tp2_hit t = false /\
    entry_price t = td_entry_price td /\
    stop_loss t = td_stop_loss td /\
    current_stop t = td_stop_loss td /\
    (0 < position_size t)%Z /\
    position_size t
    = calculate_position_size bot (td_entry_price td) (td_stop_loss td)
        (td_market_condition td).
Proof.
  cbv zeta. unfold execute_trade in Hdone. cbv zeta in Hdone.
  destruct (max_trades_per_day bot <=? trades_today (daily_stats bot))%Z
    eqn:Hcount; [ discriminate | ].
  destruct (Qle_bool _ (Qabs _)) eqn:Hloss; [ discriminate | ].
  destruct (calculate_position_size _ _ _ _ <=? 0)%Z eqn:Hsize;
    [ discriminate | ].
  injection Hdone as <- _.
  apply Z.leb_gt in Hcount, Hsize.
  split; [ exact Hcount | ].
  split; [ apply Qlt_bool_iff; unfold Qlt_bool; rewrite Hloss; reflexivity | ].
  cbn [set_trades daily_stats trades_today daily_pnl consecutive_losses
       trades_history opening_ranges active_trades].
  repeat (split; [ reflexivity | ]).
  split; [ intros k Hk; apply lookup_assign_neq, Hk | ].
  eexists. split; [ apply lookup_assign_eq | ].
  cbn. repeat split. exact Hsize.
Qed.

Lemma execute_trade_accepts_witness :
  let trade_id := ("AAPL" ++ "_" ++ str_int 1700000000)%string in
  let bot := sample_bot BasicORB in
  let bot' := fst (execute_trade bot "AAPL" sample_proposal
                     1700000000 "t1") in
  (trades_today (daily_stats bot) < max_trades_per_day bot)%Z /\
  Qabs (daily_pnl (daily_stats bot)) < account_size bot * max_daily_loss bot /\
  trades_today (daily_stats bot') = (trades_today (daily_stats bot) + 1)%Z /\
  daily_pnl (daily_stats bot') = daily_pnl (daily_stats bot) /\
  consecutive_losses (daily_stats bot')
  = consecutive_losses (daily_stats bot) /\
  trades_history bot' = trades_history bot /\
  opening_ranges bot' = opening_ranges bot /\
  (forall k, trade_id <> k ->
     lookup k (active_trades bot') = lookup k (active_trades bot)) /\
  exists t,
    lookup trade_id (active_trades bot') = Some t /\
    id t = trade_id /\ symbol t = "AAPL"%string /\
    direction t = td_direction sample_proposal /\
    status t = ACTIVE /\ closing t = None /\
    tp1_hit t = false /\ tp2_hit t = false /\
    entry_price t = td_entry_price sample_proposal /\
    stop_loss t = td_stop_loss sample_proposal /\
    current_stop t = td_stop_loss sample_proposal /\
    (0 < position_size t)%Z /\
    position_size t
    = calculate_position_size bot (td_entry_price sample_proposal)
        (td_stop_loss sample_proposal) (td_market_condition sample_proposal).
Proof.
  exact (execute_trade_accepts (sample_bot BasicORB)
           (fst (execute_trade (sample_bot BasicORB) "AAPL" sample_proposal
                   1700000000 "t1"))
           "AAPL" "Trade executed: AAPL_1700000000" sample_proposal
           1700000000 "t1" eq_refl).
Defined.

(** ** Closing and partial exits on the trade table *)

(** Closing a trade, or taking profit on it, under an id that is not in
    the table changes nothing: both leave through their handler. *)
Theorem inactive_id_changes_nothing
    (bot : Bot) (trade_id : string)
    (Hmissing : lookup trade_id (active_trades bot) = None) :
  (forall exit reason now,
      close_trade bot trade_id exit reason now = Excepted bot) /\
  (forall level, hit_take_profit bot trade_id level = Excepted bot).
Proof.
  split; intros; [ unfold close_trade | unfold hit_take_profit ];
    rewrite Hmissing; reflexivity.
Qed.

Lemma inactive_id_changes_nothing_witness :
  (forall exit reason now,
      close_trade (sample_entered EnhancedORB) "TSLA_1" exit reason now
      = Excepted (sample_entered EnhancedORB)) /\
  (forall level,
      hit_take_profit (sample_entered EnhancedORB) "TSLA_1" level
      = Excepted (sample_entered EnhancedORB)).
Proof.
  apply (inactive_id_changes_nothing (sample_entered EnhancedORB) "TSLA_1").
  reflexivity.
Defined.

(** Property X13.
    In the basic bot a take-profit never returns normally: it marks the
    target and cuts the size, then fails on the unbound name in its
    message and leaves through the handler, before the notification and
    the save. *)
Theorem basic_take_profit_leaves_through_handler
    (bot : Bot) (trade_id : string) (t : Trade)
    (Hclass : bot_class bot = BasicORB)
    (Hactive : lookup trade_id (active_trades bot) = Some t) :
  (forall level b, hit_take_profit bot trade_id level <> Returned b) /\
  exists b1 b2,
    hit_take_profit bot trade_id 1 = Excepted b1 /\
    lookup trade_id (active_trades b1)
    = Some (set_tp1 t (int_mul_half (position_size t))) /\
    hit_take_profit bot trade_id 2 = Excepted b2 /\
    lookup trade_id (active_trades b2)
    = Some (set_tp2 t (int_mul_quarter (position_size t))).
Proof.
  unfold hit_take_profit. rewrite Hactive, Hclass. split.
  - intros level b. destruct (level =? 1)%Z; [ discriminate | ].
    destruct (level =? 2)%Z; discriminate.
  - cbn [Z.eqb Pos.eqb]. eexists. eexists.
    split; [ reflexivity | ].
    split; [ cbn; rewrite lookup_update_key_eq, Hactive; reflexivity | ].
    split; [ reflexivity | ].
    cbn. rewrite lookup_update_key_eq, Hactive. reflexivity.
Qed.

(** Property X14.
    What a close writes: the trade leaves the table and is appended to the
    history as a CLOSED record, the day's P&L grows by the trade's P&L,
    and the other trades, the trade count and the ranges stay. *)
Theorem close_trade_bookkeeping
    (bot : Bot) (trade_id : string) (t : Trade) (exit : Q) (reason now : string)
    (Hactive : lookup trade_id (active_trades bot) = Some t) :
  let bot' := outcome_value (close_trade bot trade_id exit reason now) in
  trades_history bot'
  = trades_history bot ++ [closed_record bot t exit reason now] /\
  active_trades bot' = remove_key trade_id (active_trades bot) /\
  lookup trade_id (active_trades bot') = None /\
  (forall k, trade_id <> k ->
     lookup k (active_trades bot') = lookup k (active_trades bot)) /\
  daily_pnl (daily_stats bot')
  = daily_pnl (daily_stats bot) + trade_pnl t exit /\
  trades_today (daily_stats bot') = trades_today (daily_stats bot) /\
  opening_ranges bot' = opening_ranges bot /\
  bot_class bot' = bot_class bot.
Proof.
  cbv zeta. unfold close_trade, closed_record. rewrite Hactive. cbv zeta.
  destruct (bot_class bot) eqn:Hclass;
    [ destruct (history_pnls _) | ];
    rewrite ?outcome_value_returned_if;
    cbn [outcome_value set_trades trades_history active_trades daily_stats
         daily_pnl trades_today opening_ranges bot_class];
    (split; [ reflexivity | ]); (split; [ reflexivity | ]);
    (split; [ apply lookup_remove_key_eq | ]);
    (split; [ intros k Hk; apply lookup_remove_key_neq, Hk | ]);
    repeat split; assumption.
Qed.

Lemma close_trade_bookkeeping_witness :
  let bot := monitor_ticks (sample_entered EnhancedORB)
               [(feed_at 11.6, "t2"%string)] in
  let bot' := outcome_value
                (close_trade bot sample_trade_id 11 "End of Day Close" "t3") in
  trades_history bot'
  = trades_history bot
    ++ [closed_record bot sample_halved_trade 11 "End of Day Close" "t3"] /\
  active_trades bot' = remove_key sample_trade_id (active_trades bot) /\
  lookup sample_trade_id (active_trades bot') = None /\
  (forall k, sample_trade_id <> k ->
     lookup k (active_trades bot') = lookup k (active_trades bot)) /\
  daily_pnl (daily_stats bot')
  = daily_pnl (daily_stats bot) + trade_pnl sample_halved_trade 11 /\
  trades_today (daily_stats bot') = trades_today (daily_stats bot) /\
  opening_ranges bot' = opening_ranges bot /\
  bot_class bot' = bot_class bot.
Proof.
  intro bot.
  apply (close_trade_bookkeeping bot sample_trade_id sample_halved_trade
           11 "End of Day Close" "t3").
  reflexivity.
Defined.

(** The statistics that the enhanced bot writes on a close. *)
Lemma close_trade_enhanced_stats
    (bot : Bot) (trade_id : string) (t : Trade) (exit : Q) (reason now : string)
    (old_pnls : list Q) :
  bot_class bot = EnhancedORB ->
  lookup trade_id (active_trades bot) = Some t ->
  history_pnls (trades_history bot) = Some old_pnls ->
  win_rate (daily_stats (outcome_value (close_trade bot trade_id exit reason now)))
  = Qof_nat (winners (old_pnls ++ [trade_pnl t exit]))
    / Qof_nat (List.length (old_pnls ++ [trade_pnl t exit])) * 100.
Proof.
  intros Hclass Hactive Hold. unfold close_trade.
  rewrite Hactive, Hclass. cbv zeta.
  set (t' := set_closed t _).
  pose proof (history_pnls_app _ _ t' _ Hold eq_refl) as Hnew.
  cbn [pnl] in Hnew. rewrite Hnew, outcome_value_returned_if.
  cbn [set_trades daily_stats win_rate].
  rewrite (history_pnls_length _ _ Hnew).
  assert (Hpos : (0 <? List.length (trades_history bot ++ [t']))%nat = true).
  { apply Nat.ltb_lt. rewrite length_app. simpl. lia. }
  rewrite Hpos. reflexivity.
Qed.

Lemma winners_le_length (pnls : list Q) : (winners pnls <= List.length pnls)%nat.
Proof. unfold winners. apply filter_length_le. Qed.

(** Property X15.
    After a close in the enhanced bot the win rate is a percentage. *)
Theorem win_rate_is_percentage
    (bot : Bot) (trade_id : string) (t : Trade) (exit : Q) (reason now : string)
    (old_pnls : list Q)
    (Hclass : bot_class bot = EnhancedORB)
    (Hactive : lookup trade_id (active_trades bot) = Some t)
    (Hhistory : history_pnls (trades_history bot) = Some old_pnls) :
  let bot' := outcome_value (close_trade bot trade_id exit reason now) in
  0 <= win_rate (daily_stats bot') /\ win_rate (daily_stats bot') <= 100.
Proof.
  cbv zeta.
  rewrite (close_trade_enhanced_stats bot trade_id t exit reason now old_pnls)
    by assumption.
  set (ps := old_pnls ++ [trade_pnl t exit]).
  assert (Hn : (0 < List.length ps)%nat).
  { subst ps. rewrite length_app. simpl. lia. }
  pose proof (winners_le_length ps) as Hw.
  unfold Qof_nat.
  assert (Hnq : 0 < inject_Z (Z.of_nat (List.length ps))).
  { change 0 with (inject_Z 0). rewrite <- Zlt_Qlt. lia. }
  assert (Hwq : 0 <= inject_Z (Z.of_nat (winners ps))).
  { change 0 with (inject_Z 0). rewrite <- Zle_Qle. lia. }
  assert (Hle : inject_Z (Z.of_nat (winners ps))
                <= inject_Z (Z.of_nat (List.length ps))).
  { rewrite <- Zle_Qle. lia. }
  set (w := inject_Z (Z.of_nat (winners ps))) in *.
  set (n := inject_Z (Z.of_nat (List.length ps))) in *.
  assert (Hq0 : 0 <= w / n) by (apply Qdiv_nonneg; assumption).
  assert (Hq1 : w / n <= 1).
  { apply Qle_shift_div_r; [ exact Hnq | ]. lra. }
  split; lra.
Qed.

Lemma win_rate_is_percentage_witness :
  let bot := monitor_ticks (sample_entered EnhancedORB)
               [(feed_at 11.6, "t2"%string)] in
  let bot' := outcome_value
                (close_trade bot sample_trade_id 11 "Target 3 Hit" "t3") in
  0 <= win_rate (daily_stats bot') /\ win_rate (daily_stats bot') <= 100.
Proof.
  intro bot.
  apply (win_rate_is_percentage bot sample_trade_id sample_halved_trade
           11 "Target 3 Hit" "t3" []); reflexivity.
Defined.


Lemma basic_take_profit_leaves_through_handler_witness :
  let bot := sample_entered BasicORB in
  let t := sample_open_trade BasicORB in
  (forall level b, hit_take_profit bot sample_trade_id level <> Returned b) /\
  exists b1 b2,
    hit_take_profit bot sample_trade_id 1 = Excepted b1 /\
    lookup sample_trade_id (active_trades b1)
    = Some (set_tp1 t (int_mul_half (position_size t))) /\
    hit_take_profit bot sample_trade_id 2 = Excepted b2 /\
    lookup sample_trade_id (active_trades b2)
    = Some (set_tp2 t (int_mul_quarter (position_size t))).
Proof.
  apply (basic_take_profit_leaves_through_handler (sample_entered BasicORB)
           sample_trade_id (sample_open_trade BasicORB));
    reflexivity.
Defined.


(** ** Single iterations of the monitor *)

(** Property X17.
    Without data for any symbol a monitoring pass changes nothing. *)
Theorem monitor_without_data_is_idle
    (bot : Bot) (feed : Feed) (now : string)
    (Hdown : forall sym, get_stock_data (feed sym) = None) :
  monitor_active_trades bot feed now = bot.
Proof.
  unfold monitor_active_trades.
  generalize (map fst (active_trades bot)) as ids.
  induction ids as [ | k ids IH ]; simpl; [ reflexivity | ].
  replace (monitor_iteration feed now bot k) with bot; [ exact IH | ].
  unfold monitor_iteration.
  destruct (lookup k (active_trades bot)) as [t | ]; [ | reflexivity ].
  unfold current_price_of. rewrite Hdown. reflexivity.
Qed.

Lemma monitor_without_data_is_idle_witness :
  monitor_active_trades (sample_entered EnhancedORB) feed_down "t2"
  = sample_entered EnhancedORB.
Proof.
  apply (monitor_without_data_is_idle (sample_entered EnhancedORB)
           feed_down "t2").
  reflexivity.
Defined.

(** Property X18.
    A price at or beyond the current stop closes the trade in that
    iteration with the reason "Stop Loss Hit", at the observed price and
    not at the stop: for a LONG trade the P&L is at most what the stop
    would have given, for a SHORT trade likewise. *)
Theorem stop_hit_closes_at_observed_price
    (feed : Feed) (now : string) (bot : Bot) (trade_id : string)
    (t : Trade) (price : Q)
    (Hactive : lookup trade_id (active_trades bot) = Some t)
    (Hprice : current_price_of feed (symbol t) = Some price)
    (Hsize : (0 <= position_size t)%Z)
    (Hstop : match direction t with
             | LONG => price <= current_stop t
             | SHORT => current_stop t <= price
             end) :
  let bot' := monitor_iteration feed now bot trade_id in
  lookup trade_id (active_trades bot') = None /\
  trades_history bot'
  = trades_history bot ++ [closed_record bot t price "Stop Loss Hit" now] /\
  trade_pnl t price <= trade_pnl t (current_stop t).
Proof.
  cbv zeta. unfold monitor_iteration. rewrite Hactive, Hprice.
  assert (Hhit : stop_hit t price = true).
  { unfold stop_hit. destruct (direction t); apply Qle_bool_iff, Hstop. }
  rewrite Hhit.
  assert (Hn : 0 <= inject_Z (position_size t)).
  { change 0 with (inject_Z 0). rewrite <- Zle_Qle. exact Hsize. }
  split; [ | split ].
  - unfold close_trade. rewrite Hactive. cbv zeta.
    destruct (bot_class bot); [ destruct (history_pnls _) | ];
      rewrite ?outcome_value_returned_if; cbn;
      apply lookup_remove_key_eq.
  - unfold close_trade, closed_record. rewrite Hactive. cbv zeta.
    destruct (bot_class bot); [ destruct (history_pnls _) | ];
      rewrite ?outcome_value_returned_if; reflexivity.
  - unfold trade_pnl. destruct (direction t);
      apply Qmult_le_compat_r; try assumption; lra.
Qed.

Lemma stop_hit_closes_at_observed_price_witness :
  let bot := sample_entered EnhancedORB in
  let t := sample_open_trade EnhancedORB in
  let bot' := monitor_iteration (feed_at 9) "t2" bot sample_trade_id in
  lookup sample_trade_id (active_trades bot') = None /\
  trades_history bot'
  = trades_history bot ++ [closed_record bot t 9 "Stop Loss Hit" "t2"] /\
  trade_pnl t 9 <= trade_pnl t (current_stop t).
Proof.
  apply (stop_hit_closes_at_observed_price (feed_at 9) "t2"
           (sample_entered EnhancedORB) sample_trade_id
           (sample_open_trade EnhancedORB) 9).
  - reflexivity.
  - reflexivity.
  - discriminate.
  - discriminate.
Defined.

Lemma update_last_app {A} (f : A -> A) (l : list A) (x : A) :
  update_last f (l ++ [x]) = l ++ [f x].
Proof.
  unfold update_last. rewrite rev_app_distr. simpl.
  rewrite rev_involutive. reflexivity.
Qed.

Lemma stop_not_hit (t : Trade) (price : Q) :
  match direction t with
  | LONG => current_stop t < price
  | SHORT => price < current_stop t
  end ->
  stop_hit t price = false.
Proof.
  unfold stop_hit. destruct (direction t); apply Qle_bool_false_iff'.
Qed.

Lemma reached_iff (t : Trade) (price target : Q) :
  reached t price target = true <->
  match direction t with
  | LONG => target <= price
  | SHORT => price <= target
  end.
Proof. unfold reached. destruct (direction t); apply Qle_bool_iff. Qed.

Lemma not_reached (t : Trade) (price target : Q) :
  match direction t with
  | LONG => price < target
  | SHORT => target < price
  end ->
  reached t price target = false.
Proof.
  unfold reached. destruct (direction t); apply Qle_bool_false_iff'.
Qed.

(** Property X19.
    The first target, reached by a trade with no target hit yet, halves
    the position and, in the same iteration, brings a stop that is behind
    the entry price to the entry price; history and statistics stay. *)
Theorem first_target_halves_and_moves_stop
    (feed : Feed) (now : string) (bot : Bot) (trade_id : string)
    (t : Trade) (price : Q)
    (Hactive : lookup trade_id (active_trades bot) = Some t)
    (Hprice : current_price_of feed (symbol t) = Some price)
    (Htp1 : tp1_hit t = false) (Htp2 : tp2_hit t = false)
    (Hlive : match direction t with
             | LONG => current_stop t < price
             | SHORT => price < current_stop t
             end)
    (Htarget : match direction t with
               | LONG => target1 t <= price
               | SHORT => price <= target1 t
               end) :
  let bot' := monitor_iteration feed now bot trade_id in
  exists t',
    lookup trade_id (active_trades bot') = Some t' /\
    tp1_hit t' = true /\ tp2_hit t' = false /\ status t' = status t /\
    position_size t' = int_mul_half (position_size t) /\
    current_stop t'
    = match direction t with
      | LONG =>
          if Qlt_bool (current_stop t) (entry_price t)
          then entry_price t else current_stop t
      | SHORT =>
          if Qlt_bool (entry_price t) (current_stop t)
          then entry_price t else current_stop t
      end /\
    trades_history bot' = trades_history bot /\
    daily_stats bot' = daily_stats bot.
Proof.
  cbv zeta. unfold monitor_iteration. rewrite Hactive, Hprice.
  rewrite (stop_not_hit t price Hlive).
  unfold check_targets. rewrite Htp1.
  apply reached_iff in Htarget. rewrite Htarget. cbn [negb andb].
  unfold hit_take_profit. rewrite Hactive. cbn [Z.eqb Pos.eqb].
  set (halved := set_tp1 t (int_mul_half (position_size t))).
  assert (Hbot1 :
    forall o : Outcome Bot,
      outcome_value o
      = set_active bot
          (update_key trade_id
             (fun x => set_tp1 x (int_mul_half (position_size x)))
             (active_trades bot)) ->
      exists t',
        lookup trade_id (active_trades (trail_stop_object (outcome_value o) trade_id))
        = Some t' /\ t' = trail_stop halved /\
        trades_history (trail_stop_object (outcome_value o) trade_id)
        = trades_history bot /\
        daily_stats (trail_stop_object (outcome_value o) trade_id)
        = daily_stats bot).
  { intros o ->. unfold trail_stop_object.
    cbn [set_active set_trades active_trades].
    rewrite lookup_update_key_eq, Hactive. cbn [option_map].
    cbn [set_active set_trades active_trades trades_history daily_stats].
    rewrite !lookup_update_key_eq, Hactive. cbn [option_map].
    eexists. repeat split. }
  match goal with
  | |- exists t', lookup _ (active_trades (trail_stop_object (outcome_value ?o) _)) = _ /\ _ =>
      destruct (Hbot1 o) as (t' & Hl & Ht' & Hh & Hs)
  end.
  { destruct (bot_class bot); rewrite ?outcome_value_returned_if; reflexivity. }
  exists t'. split; [ exact Hl | ]. subst t'.
  unfold trail_stop, halved. cbn [tp1_hit tp2_hit set_tp1 direction
    current_stop entry_price]. rewrite Htp2. cbn [negb andb].
  destruct (direction t).
  - destruct (Qlt_bool (current_stop t) (entry_price t)); cbn;
      rewrite ?Htp2; repeat split; assumption.
  - destruct (Qlt_bool (entry_price t) (current_stop t)); cbn;
      rewrite ?Htp2; repeat split; assumption.
Qed.

Lemma first_target_halves_and_moves_stop_witness :
  let bot := sample_entered EnhancedORB in
  let t := sample_open_trade EnhancedORB in
  let bot' := monitor_iteration (feed_at 11.6) "t2" bot sample_trade_id in
  exists t',
    lookup sample_trade_id (active_trades bot') = Some t' /\
    tp1_hit t' = true /\ tp2_hit t' = false /\ status t' = status t /\
    position_size t' = int_mul_half (position_size t) /\
    current_stop t'
    = match direction t with
      | LONG =>
          if Qlt_bool (current_stop t) (entry_price t)
          then entry_price t else current_stop t
      | SHORT =>
          if Qlt_bool (entry_price t) (current_stop t)
          then entry_price t else current_stop t
      end /\
    trades_history bot' = trades_history bot /\
    daily_stats bot' = daily_stats bot.
Proof.
  apply (first_target_halves_and_moves_stop (feed_at 11.6) "t2"
           (sample_entered EnhancedORB) sample_trade_id
           (sample_open_trade EnhancedORB) 11.6);
    first [ reflexivity | discriminate ].
Defined.

(** Property X20.
    A price that has reached the third target but neither the first nor
    the second closes the whole position of a trade with no target hit,
    with the reason "Target 3 Hit": no partial exit is taken. *)
Theorem third_target_closes_whole_position
    (feed : Feed) (now : string) (bot : Bot) (trade_id : string)
    (t : Trade) (price : Q)
    (Hactive : lookup trade_id (active_trades bot) = Some t)
    (Hprice : current_price_of feed (symbol t) = Some price)
    (Htp1 : tp1_hit t = false)
    (Hlive : match direction t with
             | LONG => current_stop t < price
             | SHORT => price < current_stop t
             end)
    (Hthird : match direction t with
              | LONG => target3 t <= price
              | SHORT => price <= target3 t
              end)
    (Hfirst : match direction t with
              | LONG => price < target1 t
              | SHORT => target1 t < price
              end)
    (Hsecond : match direction t with
               | LONG => price < target2 t
               | SHORT => target2 t < price
               end) :
  let bot' := monitor_iteration feed now bot trade_id in
  lookup trade_id (active_trades bot') = None /\
  trades_history bot'
  = trades_history bot ++ [closed_record bot t price "Target 3 Hit" now] /\
  position_size (closed_record bot t price "Target 3 Hit" now)
  = position_size t.
Proof.
  cbv zeta. unfold monitor_iteration. rewrite Hactive, Hprice.
  rewrite (stop_not_hit t price Hlive).
  unfold check_targets.
  rewrite (not_reached t price (target1 t) Hfirst).
  rewrite (not_reached t price (target2 t) Hsecond).
  apply reached_iff in Hthird. rewrite Hthird, !andb_false_r.
  assert (Hclosed :
    active_trades
      (outcome_value (close_trade bot trade_id price "Target 3 Hit" now))
    = remove_key trade_id (active_trades bot) /\
    trades_history
      (outcome_value (close_trade bot trade_id price "Target 3 Hit" now))
    = trades_history bot ++ [closed_record bot t price "Target 3 Hit" now]).
  { unfold close_trade, closed_record. rewrite Hactive. cbv zeta.
    destruct (bot_class bot); [ destruct (history_pnls _) | ];
      rewrite ?outcome_value_returned_if; split; reflexivity. }
  destruct Hclosed as [Hact Hhist].
  unfold trail_stop_object. rewrite Hact, lookup_remove_key_eq.
  cbn [set_history set_trades active_trades trades_history].
  rewrite Hact, Hhist, update_last_app.
  split; [ apply lookup_remove_key_eq | ].
  split; [ | reflexivity ].
  unfold trail_stop, closed_record. cbn [tp1_hit set_closed].
  rewrite Htp1. reflexivity.
Qed.

Lemma third_target_closes_whole_position_witness :
  let bot := sample_entered EnhancedORB in
  let t := sample_open_trade EnhancedORB in
  let bot' := monitor_iteration (feed_at 11) "t2" bot sample_trade_id in
  lookup sample_trade_id (active_trades bot') = None /\
  trades_history bot'
  = trades_history bot ++ [closed_record bot t 11 "Target 3 Hit" "t2"] /\
  position_size (closed_record bot t 11 "Target 3 Hit" "t2")
  = position_size t.
Proof.
  apply (third_target_closes_whole_position (feed_at 11) "t2"
           (sample_entered EnhancedORB) sample_trade_id
           (sample_open_trade EnhancedORB) 11);
    first [ reflexivity | discriminate ].
Defined.

(** ** Sessions *)

Lemma str_in_iff (s : string) (l : list string) : str_in s l = true <-> In s l.
Proof.
  unfold str_in. rewrite existsb_exists. split.
  - intros (x & Hin & Heq). apply String.eqb_eq in Heq. subst x. exact Hin.
  - intro Hin. exists s. split; [ exact Hin | apply String.eqb_refl ].
Qed.

Lemma us_stock_is_not_uk (s : string) :
  str_in s us_stocks = true -> str_in s uk_stocks = false.
Proof.
  intro H. apply str_in_iff in H. unfold us_stocks in H. simpl in H.
  repeat (destruct H as [ <- | H ]; [ reflexivity | ]). destruct H.
Qed.

(** Property X21.
    The stocks that a tick works on are exactly the symbols whose market
    [is_market_open] reports as open. *)
Theorem active_stocks_are_the_open_markets (now : DateTime) (s : string) :
  In s (get_active_stocks_for_session now) <->
  fst (is_market_open now s) = true.
Proof.
  unfold get_active_stocks_for_session, is_market_open. cbv zeta.
  destruct (uk_session (get_optimal_trading_sessions now)),
           (us_session (get_optimal_trading_sessions now)); cbn [andb].
  - unfold all_stocks. rewrite in_app_iff, <- !str_in_iff.
    destruct (str_in s uk_stocks), (str_in s us_stocks); cbn; intuition congruence.
  - rewrite <- str_in_iff.
    destruct (str_in s uk_stocks), (str_in s us_stocks); cbn; intuition congruence.
  - rewrite <- str_in_iff.
    destruct (str_in s us_stocks) eqn:Hus.
    + rewrite (us_stock_is_not_uk s Hus). cbn. intuition congruence.
    + destruct (str_in s uk_stocks); cbn; intuition congruence.
  - destruct (str_in s uk_stocks), (str_in s us_stocks); cbn;
      intuition (try congruence; try contradiction).
Qed.

(** Property X22.
    For a listed stock, the opening-range window lies inside the hours in
    which its market is reported open. *)
Theorem opening_window_within_session
    (now : DateTime) (s : string)
    (Hclock : valid_clock now)
    (Hlisted : str_in s all_stocks = true)
    (Hwindow : is_opening_range_period now s = true) :
  fst (is_market_open now s) = true.
Proof.
  unfold is_opening_range_period, is_market_open in *. cbv zeta.
  unfold all_stocks, str_in in Hlisted. rewrite existsb_app in Hlisted.
  fold (str_in s us_stocks) in Hlisted. fold (str_in s uk_stocks) in Hlisted.
  destruct Hclock as (Hh & Hm & Hs & Hu).
  destruct (str_in s uk_stocks) eqn:Huk.
  - cbn [fst get_optimal_trading_sessions uk_session].
    apply andb_prop in Hwindow. destruct Hwindow as [Hlo Hhi].
    unfold dt_le, dt_micros, dt_replace in *.
    cbn [hour minute second microsecond] in *.
    apply Z.leb_le in Hlo, Hhi.
    apply andb_true_intro. split; apply Z.leb_le; lia.
  - rewrite orb_false_r in Hlisted. rewrite Hlisted.
    cbn [fst get_optimal_trading_sessions us_session].
    apply andb_prop in Hwindow. destruct Hwindow as [Hlo Hhi].
    unfold dt_le, dt_micros, dt_replace in *.
    cbn [hour minute second microsecond] in *.
    apply Z.leb_le in Hlo, Hhi.
    assert (Hge : (18 <=? hour now)%Z = true) by (apply Z.leb_le; lia).
    rewrite Hge. reflexivity.
Qed.

Lemma opening_window_within_session_witness :
  fst (is_market_open (mkDateTime 18 45 0 0) "TSLA") = true.
Proof.
  apply (opening_window_within_session (mkDateTime 18 45 0 0) "TSLA").
  - unfold valid_clock. cbn. lia.
  - reflexivity.
  - reflexivity.
Defined.

(** ** The range pass *)

Lemma range_pass_done
    (clock : DateTime) (today : Z) (now : string) (fetch : Feed)
    (stocks : list string) (bot : Bot) :
  range_pass clock today now fetch stocks (bot, Some today) = (bot, Some today).
Proof.
  unfold range_pass. induction stocks as [ | s stocks IH ]; simpl;
    [ reflexivity | ].
  destruct (is_opening_range_period clock s); [ | exact IH ].
  rewrite Z.eqb_refl. exact IH.
Qed.

(** Property X23.
    In the enhanced bot the date of the last calculation is recorded
    inside the loop over the symbols: a pass computes the range of the
    first symbol that is in its opening window, when the day has none yet,
    and of no other symbol. *)
Theorem range_pass_computes_first_only
    (clock : DateTime) (today : Z) (now : string) (fetch : Feed)
    (stocks : list string) (bot : Bot) (last : option Z) :
  range_pass clock today now fetch stocks (bot, last)
  = match find (is_opening_range_period clock) stocks with
    | None => (bot, last)
    | Some first =>
        (match last with
         | Some d =>
             if (d =? today)%Z then bot
             else fst (calculate_opening_range bot first now (fetch first))
         | None => fst (calculate_opening_range bot first now (fetch first))
         end,
         Some today)
    end.
Proof.
  revert bot last. induction stocks as [ | s stocks IH ]; intros bot last;
    [ reflexivity | ].
  unfold range_pass in *. simpl.
  destruct (is_opening_range_period clock s); [ | apply IH ].
  apply (range_pass_done clock today now fetch stocks).
Qed.

Lemma lookup_assign_some {A} (k s : string) (v : A) (m : list (string * A)) :
  lookup s m <> None -> lookup s (assign k v m) <> None.
Proof.
  intro H. destruct (string_dec k s) as [ <- | Hne ].
  - rewrite lookup_assign_eq. discriminate.
  - rewrite lookup_assign_neq by assumption. exact H.
Qed.

Lemma calculate_opening_range_keeps (bot : Bot) (k s now : string)
    (fetched : option (list Bar)) :
  lookup s (opening_ranges bot) <> None ->
  lookup s (opening_ranges (fst (calculate_opening_range bot k now fetched)))
  <> None.
Proof.
  intro H. unfold calculate_opening_range.
  destruct (opening_range_of k now fetched); cbn; [ | exact H ].
  apply lookup_assign_some, H.
Qed.

Lemma calculate_opening_range_sets (bot : Bot) (s now : string)
    (fetched : option (list Bar)) :
  get_stock_data fetched <> None ->
  lookup s (opening_ranges (fst (calculate_opening_range bot s now fetched)))
  <> None.
Proof.
  intro H. unfold calculate_opening_range, opening_range_of.
  destruct (get_stock_data fetched) as [[ | b bs] | ] eqn:Hd;
    try congruence.
  - destruct fetched as [[ | ? ?] | ]; discriminate.
  - cbn. rewrite lookup_assign_eq. discriminate.
Qed.

(** Property X24.
    In the basic bot the pass of a day that has no ranges yet computes one
    for every supported stock that has bars. *)
Theorem range_pass_basic_computes_all
    (today : Z) (now : string) (fetch : Feed)
    (stocks : list string) (bot : Bot) (last : option Z) (s : string)
    (Hday : last <> Some today)
    (Hin : In s stocks)
    (Hdata : get_stock_data (fetch s) <> None) :
  lookup s
    (opening_ranges (fst (range_pass_basic today now fetch stocks (bot, last))))
  <> None /\
  snd (range_pass_basic today now fetch stocks (bot, last)) = Some today.
Proof.
  assert (Hfold : forall stocks b,
            (lookup s (opening_ranges b) <> None \/ In s stocks) ->
            lookup s
              (opening_ranges
                 (fold_left
                    (fun b sym =>
                       fst (calculate_opening_range b sym now (fetch sym)))
                    stocks b)) <> None).
  { clear Hin stocks. induction stocks as [ | k stocks IH ]; intros b H; simpl.
    - destruct H as [H | []]. exact H.
    - apply IH. destruct H as [H | [ -> | H ]].
      + left. apply calculate_opening_range_keeps, H.
      + left. apply calculate_opening_range_sets, Hdata.
      + right. exact H. }
  unfold range_pass_basic.
  destruct last as [d | ].
  - destruct (d =? today)%Z eqn:E.
    + apply Z.eqb_eq in E. subst d. congruence.
    + cbn. split; [ apply Hfold; right; exact Hin | reflexivity ].
  - cbn. split; [ apply Hfold; right; exact Hin | reflexivity ].
Qed.

Lemma range_pass_basic_computes_all_witness :
  lookup "MSFT"
    (opening_ranges
       (fst (range_pass_basic 19700 "t0" (feed_at 10) us_stocks
               (sample_bot BasicORB, None))))
  <> None /\
  snd (range_pass_basic 19700 "t0" (feed_at 10) us_stocks
         (sample_bot BasicORB, None)) = Some 19700%Z.
Proof.
  apply (range_pass_basic_computes_all 19700 "t0" (feed_at 10) us_stocks
           (sample_bot BasicORB) None "MSFT").
  - discriminate.
  - right. right. left. reflexivity.
  - discriminate.
Defined.

(** ** Evolution of the trade table *)

Lemma same_setup_refl (b : Bot) : same_setup b b.
Proof. unfold same_setup. repeat split. Qed.

Lemma same_setup_trans (b1 b2 b3 : Bot) :
  same_setup b1 b2 -> same_setup b2 b3 -> same_setup b1 b3.
Proof.
  unfold same_setup. intros H12 H23.
  destruct H12 as (? & ? & ? & ? & ? & ? & ?).
  destruct H23 as (? & ? & ? & ? & ? & ? & ?).
  repeat split; congruence.
Qed.

Lemma same_setup_set_active (b : Bot) (active : list (string * Trade)) :
  same_setup b (set_active b active).
Proof. unfold same_setup. repeat split. Qed.

Lemma same_setup_set_history (b : Bot) (history : list Trade) :
  same_setup b (set_history b history).
Proof. unfold same_setup. repeat split. Qed.

Lemma same_setup_close_trade
    (b : Bot) (k : string) (exit : Q) (reason now : string) :
  same_setup b (outcome_value (close_trade b k exit reason now)).
Proof.
  unfold close_trade.
  destruct (lookup k (active_trades b)); [ | apply same_setup_refl ].
  cbv zeta. destruct (bot_class b) eqn:Hc; [ destruct (history_pnls _) | ];
    rewrite ?outcome_value_returned_if; unfold same_setup; cbn;
    repeat split; assumption.
Qed.

Section Evolution.

Variable R : Trade -> Trade -> Prop.
Hypothesis R_refl : forall t, R t t.
Hypothesis R_trans : forall t1 t2 t3, R t1 t2 -> R t2 t3 -> R t1 t3.
Hypothesis R_tp1 : forall t, R t (set_tp1 t (int_mul_half (position_size t))).
Hypothesis R_tp2 : forall t, R t (set_tp2 t (int_mul_quarter (position_size t))).
Hypothesis R_trail : forall t, R t (trail_stop t).

Lemma evolves_refl (b : Bot) : evolves R b b.
Proof.
  split; [ apply same_setup_refl | ].
  intros k t' H. exists t'. split; [ exact H | apply R_refl ].
Qed.

Lemma evolves_trans (b1 b2 b3 : Bot) :
  evolves R b1 b2 -> evolves R b2 b3 -> evolves R b1 b3.
Proof.
  intros [S12 H12] [S23 H23]. split; [ eapply same_setup_trans; eassumption | ].
  intros k t3 H3.
  destruct (H23 k t3 H3) as (t2 & H2 & R23).
  destruct (H12 k t2 H2) as (t1 & H1 & R12).
  exists t1. split; [ exact H1 | eapply R_trans; eassumption ].
Qed.

Lemma evolves_update (b : Bot) (k : string) (f : Trade -> Trade) :
  (forall t, R t (f t)) ->
  evolves R b (set_active b (update_key k f (active_trades b))).
Proof.
  intro Hf. split; [ apply same_setup_set_active | ].
  intros k' t' H. cbn [set_active set_trades active_trades] in H.
  destruct (string_dec k k') as [ <- | Hne ].
  - rewrite lookup_update_key_eq in H.
    destruct (lookup k (active_trades b)) as [t | ]; [ | discriminate ].
    injection H as <-. exists t. split; [ reflexivity | apply Hf ].
  - rewrite lookup_update_key_neq in H by assumption.
    exists t'. split; [ exact H | apply R_refl ].
Qed.

Lemma evolves_close_trade
    (b : Bot) (k : string) (exit : Q) (reason now : string) :
  evolves R b (outcome_value (close_trade b k exit reason now)).
Proof.
  split; [ apply same_setup_close_trade | ].
  unfold close_trade.
  destruct (lookup k (active_trades b)) eqn:Hk;
    [ | intros k' t' H; exists t'; split; [ exact H | apply R_refl ] ].
  cbv zeta. intros k' t' H.
  assert (Hrem : lookup k' (remove_key k (active_trades b)) = Some t').
  { destruct (bot_class b); [ destruct (history_pnls _) | ];
      rewrite ?outcome_value_returned_if in H; exact H. }
  destruct (string_dec k k') as [ <- | Hne ].
  - rewrite lookup_remove_key_eq in Hrem. discriminate.
  - rewrite lookup_remove_key_neq in Hrem by assumption.
    exists t'. split; [ exact Hrem | apply R_refl ].
Qed.

Lemma evolves_hit_take_profit (b : Bot) (k : string) (level : Z) :
  evolves R b (outcome_value (hit_take_profit b k level)).
Proof.
  unfold hit_take_profit.
  destruct (lookup k (active_trades b)); [ | apply evolves_refl ].
  destruct (level =? 1)%Z; [ | destruct (level =? 2)%Z ];
    [ | | apply evolves_refl ];
    destruct (bot_class b); rewrite ?outcome_value_returned_if;
    cbn [outcome_value]; apply evolves_update; assumption.
Qed.

Lemma evolves_trail_stop_object (b : Bot) (k : string) :
  evolves R b (trail_stop_object b k).
Proof.
  unfold trail_stop_object.
  destruct (lookup k (active_trades b)).
  - apply evolves_update, R_trail.
  - split; [ apply same_setup_set_history | ].
    intros k' t' H. exists t'. split; [ exact H | apply R_refl ].
Qed.

Lemma evolves_check_targets
    (b : Bot) (k : string) (t : Trade) (price : Q) (now : string) :
  evolves R b (check_targets b k t price now).
Proof.
  unfold check_targets.
  destruct (negb (tp1_hit t) && reached t price (target1 t));
    [ apply evolves_hit_take_profit | ].
  destruct (negb (tp2_hit t) && reached t price (target2 t));
    [ apply evolves_hit_take_profit | ].
  destruct (reached t price (target3 t));
    [ apply evolves_close_trade | apply evolves_refl ].
Qed.

Lemma evolves_monitor_iteration
    (feed : Feed) (now : string) (b : Bot) (k : string) :
  evolves R b (monitor_iteration feed now b k).
Proof.
  unfold monitor_iteration.
  destruct (lookup k (active_trades b)) as [t | ]; [ | apply evolves_refl ].
  destruct (current_price_of feed (symbol t)) as [price | ];
    [ | apply evolves_refl ].
  destruct (stop_hit t price); [ apply evolves_close_trade | ].
  eapply evolves_trans;
    [ apply evolves_check_targets | apply evolves_trail_stop_object ].
Qed.

Lemma evolves_fold
    (step : Bot -> string -> Bot) (ids : list string) (b : Bot) :
  (forall b k, evolves R b (step b k)) ->
  evolves R b (fold_left step ids b).
Proof.
  intro Hstep. revert b. induction ids as [ | k ids IH ]; intro b; simpl.
  - apply evolves_refl.
  - eapply evolves_trans; [ apply Hstep | apply IH ].
Qed.

Lemma evolves_monitor_active_trades (b : Bot) (feed : Feed) (now : string) :
  evolves R b (monitor_active_trades b feed now).
Proof.
  unfold monitor_active_trades. apply evolves_fold.
  intros. apply evolves_monitor_iteration.
Qed.

Lemma evolves_monitor_ticks (ticks : list (Feed * string)) (b : Bot) :
  evolves R b (monitor_ticks b ticks).
Proof.
  unfold monitor_ticks. revert b.
  induction ticks as [ | tick ticks IH ]; intro b; simpl.
  - apply evolves_refl.
  - eapply evolves_trans; [ apply evolves_monitor_active_trades | apply IH ].
Qed.

Lemma evolves_sweep_iteration
    (feed : Feed) (now : string) (b : Bot) (k : string) :
  evolves R b (sweep_iteration feed now b k).
Proof.
  unfold sweep_iteration.
  destruct (lookup k (active_trades b)) as [t | ]; [ | apply evolves_refl ].
  destruct (current_price_of feed (symbol t)); [ | apply evolves_refl ].
  apply evolves_close_trade.
Qed.

Lemma evolves_close_all_positions (b : Bot) (feed : Feed) (now : string) :
  evolves R b (close_all_positions b feed now).
Proof.
  unfold close_all_positions. apply evolves_fold.
  intros. apply evolves_sweep_iteration.
Qed.

End Evolution.

Lemma quot_shrinks (n d : Z) :
  (0 <= n)%Z -> (0 < d)%Z -> (0 <= n ÷ d <= n)%Z.
Proof.
  intros Hn Hd. rewrite Z.quot_div_nonneg by assumption. split.
  - apply Z.div_pos; assumption.
  - apply Z.div_le_upper_bound; [ assumption | nia ].
Qed.

Ltac progressed_fields :=
  unfold progressed; cbn;
  do 9 (split; [ congruence | ]).

Lemma progressed_refl (t : Trade) : progressed t t.
Proof.
  progressed_fields. split; [ auto | ]. split; [ auto | ]. intro. lia.
Qed.

Lemma progressed_trans (t1 t2 t3 : Trade) :
  progressed t1 t2 -> progressed t2 t3 -> progressed t1 t3.
Proof.
  unfold progressed.
  intros (? & ? & ? & ? & ? & ? & ? & ? & ? & Ha1 & Hb1 & Hs1)
         (? & ? & ? & ? & ? & ? & ? & ? & ? & Ha2 & Hb2 & Hs2).
  do 9 (split; [ congruence | ]).
  split; [ auto | ]. split; [ auto | ].
  intro Hn. specialize (Hs1 Hn). destruct Hs1 as [H0' H1'].
  specialize (Hs2 H0'). lia.
Qed.

Lemma progressed_tp1 (t : Trade) :
  progressed t (set_tp1 t (int_mul_half (position_size t))).
Proof.
  progressed_fields. split; [ auto | ]. split; [ auto | ].
  intro. unfold int_mul_half. apply quot_shrinks; lia.
Qed.

Lemma progressed_tp2 (t : Trade) :
  progressed t (set_tp2 t (int_mul_quarter (position_size t))).
Proof.
  progressed_fields. split; [ auto | ]. split; [ auto | ].
  intro. unfold int_mul_quarter. apply quot_shrinks; lia.
Qed.

Lemma progressed_trail (t : Trade) : progressed t (trail_stop t).
Proof.
  unfold trail_stop.
  destruct (tp1_hit t && negb (tp2_hit t)); [ | apply progressed_refl ].
  destruct (direction t);
    match goal with
    | |- context [ if ?c then _ else _ ] => destruct c
    end;
    try apply progressed_refl;
    (progressed_fields; split; [ auto | ]; split; [ auto | ]; intro; lia).
Qed.

(** Property X25.
    Over any run of monitoring ticks a trade that stays in the table keeps
    its identity, direction, status, entry, original stop and three
    targets; a target once hit stays hit; and a size that is not negative
    never grows. *)
Theorem monitoring_only_progresses_trades
    (bot : Bot) (ticks : list (Feed * string))
    (trade_id : string) (t t' : Trade)
    (Hbefore : lookup trade_id (active_trades bot) = Some t)
    (Hafter : lookup trade_id (active_trades (monitor_ticks bot ticks)) = Some t') :
  progressed t t'.
Proof.
  destruct (evolves_monitor_ticks progressed progressed_refl progressed_trans
              progressed_tp1 progressed_tp2 progressed_trail ticks bot)
    as [_ H].
  destruct (H trade_id t' Hafter) as (t0 & Ht0 & Hp).
  rewrite Hbefore in Ht0. injection Ht0 as <-. exact Hp.
Qed.

Lemma monitoring_only_progresses_trades_witness :
  progressed (sample_open_trade EnhancedORB) sample_halved_trade.
Proof.
  apply (monitoring_only_progresses_trades (sample_entered EnhancedORB)
           [(feed_at 11.6, "t2"%string)] sample_trade_id).
  - reflexivity.
  - reflexivity.
Defined.

(** ** The end-of-day sweep *)

Lemma remove_key_absent {A} (k : string) (m : list (string * A)) :
  ~ In k (map fst m) -> remove_key k m = m.
Proof.
  induction m as [ | [k' v] m IH ]; simpl; intro Hnot; [ reflexivity | ].
  destruct (String.eqb k k') eqn:E.
  - apply String.eqb_eq in E. subst k'. exfalso. apply Hnot. left. reflexivity.
  - rewrite IH; [ reflexivity | ]. intro Hin. apply Hnot. right. exact Hin.
Qed.

(** Table, history and class after a close of a trade of the table. *)
Lemma close_trade_effect
    (bot : Bot) (k : string) (t : Trade) (exit : Q) (reason now : string) :
  lookup k (active_trades bot) = Some t ->
  let bot' := outcome_value (close_trade bot k exit reason now) in
  active_trades bot' = remove_key k (active_trades bot) /\
  trades_history bot'
  = trades_history bot ++ [closed_record bot t exit reason now] /\
  bot_class bot' = bot_class bot.
Proof.
  intro Hk. cbv zeta. unfold close_trade, closed_record. rewrite Hk. cbv zeta.
  destruct (bot_class bot) eqn:Hc; [ destruct (history_pnls _) | ];
    rewrite ?outcome_value_returned_if; cbn; repeat split; assumption.
Qed.

Lemma sweep_record_class (b1 b2 : Bot) (feed : Feed) (now : string)
    (entry : string * Trade) :
  bot_class b1 = bot_class b2 ->
  sweep_record b1 feed now entry = sweep_record b2 feed now entry.
Proof.
  intro H. unfold sweep_record, closed_record. rewrite H. reflexivity.
Qed.

Lemma sweep_fold (feed : Feed) (now : string) (l : list (string * Trade)) :
  forall bot,
    active_trades bot = l ->
    NoDup (map fst l) ->
    (forall entry, In entry l ->
       current_price_of feed (symbol (snd entry)) <> None) ->
    active_trades (fold_left (sweep_iteration feed now) (map fst l) bot) = [] /\
    trades_history (fold_left (sweep_iteration feed now) (map fst l) bot)
    = trades_history bot ++ map (sweep_record bot feed now) l.
Proof.
  induction l as [ | [k t] l IH ]; intros bot Hl Hnodup Hdata; simpl.
  - rewrite app_nil_r. split; [ exact Hl | reflexivity ].
  - inversion Hnodup as [ | ? ? Hnotin Hnodup' ]; subst.
    assert (Hk : lookup k (active_trades bot) = Some t).
    { rewrite Hl. simpl. rewrite String.eqb_refl. reflexivity. }
    unfold sweep_iteration at 2 4. rewrite Hk.
    destruct (current_price_of feed (symbol t)) as [price | ] eqn:Hp;
      [ | exfalso; apply (Hdata (k, t)); [ left; reflexivity | exact Hp ] ].
    destruct (close_trade_effect bot k t price "End of Day Close" now Hk)
      as (Hact & Hhist & Hclass).
    set (bot1 := outcome_value
                   (close_trade bot k price "End of Day Close" now)) in *.
    assert (Hl1 : active_trades bot1 = l).
    { rewrite Hact, Hl. simpl. rewrite String.eqb_refl.
      apply remove_key_absent, Hnotin. }
    destruct (IH bot1 Hl1 Hnodup') as [Hempty Hrest].
    { intros entry Hin. apply Hdata. right. exact Hin. }
    split; [ exact Hempty | ].
    rewrite Hrest, Hhist, <- app_assoc. cbn [app].
    unfold sweep_record at 2. cbn [snd]. rewrite Hp.
    f_equal. f_equal. apply map_ext. intro entry.
    apply sweep_record_class, Hclass.
Qed.

(** Property X26.
    When every traded symbol has data, the sweep closes every trade of the
    table, whatever its market: the table is left empty and the history
    gains, in the order of the table, one "End of Day Close" record per
    trade. *)
Theorem sweep_closes_every_position
    (bot : Bot) (feed : Feed) (now : string)
    (Hkeys : NoDup (map fst (active_trades bot)))
    (Hdata : forall entry, In entry (active_trades bot) ->
               current_price_of feed (symbol (snd entry)) <> None) :
  active_trades (close_all_positions bot feed now) = [] /\
  trades_history (close_all_positions bot feed now)
  = trades_history bot ++ map (sweep_record bot feed now) (active_trades bot).
Proof.
  unfold close_all_positions.
  apply (sweep_fold feed now (active_trades bot) bot eq_refl Hkeys Hdata).
Qed.

Lemma sweep_closes_every_position_witness :
  active_trades
    (close_all_positions (sample_entered EnhancedORB) (feed_at 10.5) "t9") = [] /\
  trades_history
    (close_all_positions (sample_entered EnhancedORB) (feed_at 10.5) "t9")
  = trades_history (sample_entered EnhancedORB)
    ++ map (sweep_record (sample_entered EnhancedORB) (feed_at 10.5) "t9")
         (active_trades (sample_entered EnhancedORB)).
Proof.
  apply (sweep_closes_every_position (sample_entered EnhancedORB)
           (feed_at 10.5) "t9").
  - repeat constructor. intros [].
  - intros entry Hin. discriminate.
Defined.

(** ** Invariants of the loop *)

Lemma lookup_In {A} (k : string) (v : A) (m : list (string * A)) :
  lookup k m = Some v -> In (k, v) m.
Proof.
  induction m as [ | [k' v'] m IH ]; simpl; [ discriminate | ].
  destruct (String.eqb k k') eqn:E.
  - apply String.eqb_eq in E. subst k'. intros [= <-]. left. reflexivity.
  - intro H. right. apply IH, H.
Qed.

Lemma has_active_trade_false (bot : Bot) (sym k : string) (t : Trade) :
  has_active_trade bot sym = false ->
  lookup k (active_trades bot) = Some t ->
  status t = ACTIVE -> symbol t <> sym.
Proof.
  unfold has_active_trade. intros Hnone Hk Hstatus Hsym.
  apply lookup_In in Hk.
  assert (Hex : existsb
                  (fun entry =>
                     String.eqb (symbol (snd entry)) sym
                     && match status (snd entry) with
                        | ACTIVE => true
                        | CLOSED => false
                        end) (active_trades bot) = true).
  { apply existsb_exists. exists (k, t). split; [ exact Hk | ].
    cbn [snd]. rewrite Hsym, Hstatus, String.eqb_refl. reflexivity. }
  congruence.
Qed.

(** What [execute_trade] does to the bot: nothing, or one new ACTIVE trade
    on the symbol and one more trade counted, below the limit. *)
Lemma execute_trade_shape
    (bot : Bot) (sym : string) (td : TradeData) (epoch : Z) (now : string) :
  let bot' := fst (execute_trade bot sym td epoch now) in
  bot' = bot \/
  (exists trade,
      active_trades bot'
      = assign (sym ++ "_" ++ str_int epoch)%string trade (active_trades bot) /\
      symbol trade = sym /\ status trade = ACTIVE /\
      (trades_today (daily_stats bot) < max_trades_per_day bot)%Z).
Proof.
  cbv zeta. unfold execute_trade. cbv zeta.
  destruct (max_trades_per_day bot <=? trades_today (daily_stats bot))%Z
    eqn:Hcount; [ left; reflexivity | ].
  destruct (Qle_bool _ (Qabs _)); [ left; reflexivity | ].
  destruct (calculate_position_size _ _ _ _ <=? 0)%Z; [ left; reflexivity | ].
  right. eexists. cbn [fst set_trades active_trades].
  split; [ reflexivity | ]. cbn [symbol status].
  split; [ reflexivity | ]. split; [ reflexivity | ].
  apply Z.leb_gt, Hcount.
Qed.

Lemma one_trade_per_symbol_evolves (b b' : Bot) :
  evolves progressed b b' ->
  one_trade_per_symbol b -> one_trade_per_symbol b'.
Proof.
  intros [_ Hev] [Hactive Hunique]. split.
  - intros k t' Hk. destruct (Hev k t' Hk) as (t & Ht & Hp).
    destruct Hp as (_ & _ & _ & Hstatus & _). rewrite Hstatus.
    apply (Hactive k t Ht).
  - intros k1 k2 t1' t2' H1 H2 Hsym.
    destruct (Hev k1 t1' H1) as (t1 & Ht1 & Hp1).
    destruct (Hev k2 t2' H2) as (t2 & Ht2 & Hp2).
    destruct Hp1 as (_ & Hs1 & _). destruct Hp2 as (_ & Hs2 & _).
    apply (Hunique k1 k2 t1 t2 Ht1 Ht2). congruence.
Qed.

Lemma one_trade_per_symbol_enter
    (bot : Bot) (sym : string) (proposal : option TradeData)
    (epoch : Z) (now : string) :
  one_trade_per_symbol bot ->
  one_trade_per_symbol (enter_if_flat bot sym proposal epoch now).
Proof.
  intro Hinv. unfold enter_if_flat.
  destruct proposal as [td | ]; [ | exact Hinv ].
  destruct (has_active_trade bot sym) eqn:Hflat; [ exact Hinv | ].
  destruct (execute_trade_shape bot sym td epoch now)
    as [ -> | (trade & Hact & Hsym & Hstatus & _) ]; [ exact Hinv | ].
  destruct Hinv as [Hactive Hunique].
  set (new_id := (sym ++ "_" ++ str_int epoch)%string) in *.
  assert (Hlook : forall k t,
            lookup k (active_trades (fst (execute_trade bot sym td epoch now)))
            = Some t ->
            (k = new_id /\ t = trade) \/
            (k <> new_id /\ lookup k (active_trades bot) = Some t)).
  { intros k t Hk. rewrite Hact in Hk.
    destruct (string_dec new_id k) as [ <- | Hne ].
    - rewrite lookup_assign_eq in Hk. injection Hk as <-. left. split; reflexivity.
    - rewrite lookup_assign_neq in Hk by assumption.
      right. split; [ congruence | exact Hk ]. }
  split.
  - intros k t Hk. destruct (Hlook k t Hk) as [[_ ->] | [_ Hold]];
      [ exact Hstatus | apply (Hactive k t Hold) ].
  - intros k1 k2 t1 t2 H1 H2 Hsame.
    destruct (Hlook k1 t1 H1) as [[-> ->] | [Hn1 Hold1]];
      destruct (Hlook k2 t2 H2) as [[-> ->] | [Hn2 Hold2]].
    + reflexivity.
    + exfalso.
      apply (has_active_trade_false bot sym k2 t2 Hflat Hold2
               (Hactive k2 t2 Hold2)). congruence.
    + exfalso.
      apply (has_active_trade_false bot sym k1 t1 Hflat Hold1
               (Hactive k1 t1 Hold1)). congruence.
    + apply (Hunique k1 k2 t1 t2 Hold1 Hold2 Hsame).
Qed.

(** A range pass writes ranges only. *)
Lemma range_pass_keeps_trades
    (clock : DateTime) (today : Z) (now : string) (fetch : Feed)
    (stocks : list string) (state : Bot * option Z) :
  let bot' := fst (range_pass clock today now fetch stocks state) in
  active_trades bot' = active_trades (fst state) /\
  daily_stats bot' = daily_stats (fst state) /\
  max_trades_per_day bot' = max_trades_per_day (fst state).
Proof.
  cbv zeta. unfold range_pass. revert state.
  induction stocks as [ | s stocks IH ]; intros [bot last]; simpl;
    [ repeat split | ].
  match goal with
  | |- context [ fold_left _ stocks ?st ] =>
      destruct (IH st) as (Ha & Hs & Hm);
      assert (Hst : active_trades (fst st) = active_trades bot /\
                    daily_stats (fst st) = daily_stats bot /\
                    max_trades_per_day (fst st) = max_trades_per_day bot)
  end.
  { destruct (is_opening_range_period clock s); [ | repeat split ].
    cbn [fst].
    assert (Hcalc : forall f,
              active_trades (fst (calculate_opening_range bot s now f))
              = active_trades bot /\
              daily_stats (fst (calculate_opening_range bot s now f))
              = daily_stats bot /\
              max_trades_per_day (fst (calculate_opening_range bot s now f))
              = max_trades_per_day bot).
    { intro f. unfold calculate_opening_range.
      destruct (opening_range_of s now f); repeat split. }
    destruct last as [d | ]; [ destruct (d =? today)%Z | ];
      first [ apply Hcalc | repeat split ]. }
  destruct Hst as (Ha' & Hs' & Hm').
  cbn [fst] in *. repeat split; congruence.
Qed.

Section LoopInvariants.

Variable float_repr : Q -> string.

Lemma scan_symbol_cases
    (clock : DateTime) (view : string -> Snapshot) (bot : Bot) (sym : string) :
  scan_symbol float_repr clock view bot sym = bot \/
  exists proposal,
    scan_symbol float_repr clock view bot sym
    = enter_if_flat bot sym proposal (snap_epoch (view sym))
        (snap_now (view sym)).
Proof.
  unfold scan_symbol.
  destruct (lookup sym (opening_ranges bot)); [ | left; reflexivity ].
  destruct (fst (is_market_open clock sym)); [ | left; reflexivity ].
  destruct (get_stock_data (snap_1m (view sym))) as [data | ];
    [ | left; reflexivity ].
  destruct (iloc_last (map bar_Close data)); [ | left; reflexivity ].
  destruct (iloc_last (map bar_Volume data)); [ | left; reflexivity ].
  right. eexists. reflexivity.
Qed.

Lemma one_trade_per_symbol_scan
    (clock : DateTime) (view : string -> Snapshot) (stocks : list string)
    (bot : Bot) :
  one_trade_per_symbol bot ->
  one_trade_per_symbol (scan_breakouts float_repr clock view stocks bot).
Proof.
  unfold scan_breakouts. revert bot.
  induction stocks as [ | s stocks IH ]; intros bot Hinv; simpl;
    [ exact Hinv | ].
  apply IH.
  destruct (scan_symbol_cases clock view bot s) as [ -> | [proposal ->] ];
    [ exact Hinv | apply one_trade_per_symbol_enter, Hinv ].
Qed.

Lemma one_trade_per_symbol_run_tick
    (input : TickInput) (state : Bot * option Z) :
  one_trade_per_symbol (fst state) ->
  one_trade_per_symbol (fst (run_tick float_repr input state)).
Proof.
  intro Hinv. unfold run_tick. cbv zeta.
  destruct (get_active_stocks_for_session (tick_clock input)) as [ | s0 rest ];
    [ exact Hinv | ].
  set (stocks := s0 :: rest).
  pose proof (range_pass_keeps_trades (tick_clock input) (tick_today input)
                (tick_now input) (tick_range_feed input) stocks state)
    as (Hact & _).
  destruct (range_pass _ _ _ _ stocks state) as [bot1 last] eqn:Hpass.
  cbn [fst] in *.
  assert (H1 : one_trade_per_symbol bot1).
  { unfold one_trade_per_symbol in *. rewrite Hact. exact Hinv. }
  assert (H2 : one_trade_per_symbol
                 match active_trades bot1 with
                 | [] => bot1
                 | _ :: _ =>
                     monitor_active_trades bot1 (tick_monitor_feed input)
                       (tick_now input)
                 end).
  { destruct (active_trades bot1) eqn:Htable; [ exact H1 | ].
    eapply one_trade_per_symbol_evolves; [ | exact H1 ].
    apply evolves_monitor_active_trades;
      auto using progressed_refl, progressed_tp1, progressed_tp2,
        progressed_trail.
    apply progressed_trans. }
  pose proof (one_trade_per_symbol_scan (tick_clock input) (tick_view input)
                stocks _ H2) as H3.
  destruct (is_sweep_time (tick_clock input)); [ | exact H3 ].
  eapply one_trade_per_symbol_evolves; [ | exact H3 ].
  apply evolves_close_all_positions;
    auto using progressed_refl, progressed_tp1, progressed_tp2,
      progressed_trail.
  apply progressed_trans.
Qed.

(** Property X27.
    However long the loop of the enhanced bot runs, a table in which every
    trade is ACTIVE and no two trades are on the same symbol stays so: the
    scanning loop enters a symbol only when it holds no ACTIVE trade. *)
Theorem run_keeps_one_trade_per_symbol
    (inputs : list TickInput) (state : Bot * option Z)
    (Hstart : one_trade_per_symbol (fst state)) :
  one_trade_per_symbol (fst (run_ticks float_repr inputs state)).
Proof.
  unfold run_ticks. revert state Hstart.
  induction inputs as [ | input inputs IH ]; intros state Hstart; simpl.
  - exact Hstart.
  - apply IH, one_trade_per_symbol_run_tick, Hstart.
Qed.

End LoopInvariants.

Lemma run_keeps_one_trade_per_symbol_witness :
  one_trade_per_symbol
    (fst (run_ticks (fun _ => "2.5"%string)
            [sample_tick 10.2; sample_tick 11.6]
            (sample_bot EnhancedORB, None))).
Proof.
  apply (run_keeps_one_trade_per_symbol (fun _ => "2.5"%string)
           [sample_tick 10.2; sample_tick 11.6]
           (sample_bot EnhancedORB, None)).
  split.
  - intros k t H. discriminate.
  - intros k1 k2 t1 t2 H. discriminate.
Defined.

Lemma no_new_trades_refl (b : Bot) : no_new_trades b b.
Proof.
  split; [ reflexivity | ]. split; [ reflexivity | ].
  intros k t' H. exists t'. split; [ exact H | apply progressed_refl ].
Qed.

Lemma no_new_trades_trans (b1 b2 b3 : Bot) :
  no_new_trades b1 b2 -> no_new_trades b2 b3 -> no_new_trades b1 b3.
Proof.
  intros (Hm1 & Hc1 & H12) (Hm2 & Hc2 & H23).
  split; [ congruence | ]. split; [ congruence | ].
  intros k t3 H3.
  destruct (H23 k t3 H3) as (t2 & H2 & P23).
  destruct (H12 k t2 H2) as (t1 & H1 & P12).
  exists t1. split; [ exact H1 | eapply progressed_trans; eassumption ].
Qed.

Lemma no_new_trades_evolves (b b' : Bot) :
  evolves progressed b b' -> no_new_trades b b'.
Proof.
  intros [(_ & _ & _ & Hmax & _ & _ & Hcount) Hev].
  split; [ exact Hmax | ]. split; [ exact Hcount | exact Hev ].
Qed.

Lemma at_trade_limit_no_new_trades (b b' : Bot) :
  no_new_trades b b' -> at_trade_limit b -> at_trade_limit b'.
Proof.
  intros (Hmax & Hcount & _) Hlimit. unfold at_trade_limit in *.
  rewrite Hmax, Hcount. exact Hlimit.
Qed.

Lemma enter_if_flat_at_limit
    (bot : Bot) (sym : string) (proposal : option TradeData)
    (epoch : Z) (now : string) :
  at_trade_limit bot -> enter_if_flat bot sym proposal epoch now = bot.
Proof.
  intro Hlimit. unfold enter_if_flat.
  destruct proposal as [td | ]; [ | reflexivity ].
  destruct (has_active_trade bot sym); [ reflexivity | ].
  destruct (execute_trade_shape bot sym td epoch now)
    as [ H | (trade & _ & _ & _ & Hbelow) ]; [ exact H | ].
  unfold at_trade_limit in Hlimit. lia.
Qed.

Section LimitIsPermanent.

Variable float_repr : Q -> string.

Lemma scan_breakouts_at_limit
    (clock : DateTime) (view : string -> Snapshot) (stocks : list string)
    (bot : Bot) :
  at_trade_limit bot ->
  scan_breakouts float_repr clock view stocks bot = bot.
Proof.
  intro Hlimit. unfold scan_breakouts.
  induction stocks as [ | s stocks IH ]; simpl; [ reflexivity | ].
  destruct (scan_symbol_cases float_repr clock view bot s)
    as [ -> | [proposal ->] ]; [ exact IH | ].
  rewrite enter_if_flat_at_limit by assumption. exact IH.
Qed.

Lemma run_tick_at_limit (input : TickInput) (state : Bot * option Z) :
  at_trade_limit (fst state) ->
  no_new_trades (fst state) (fst (run_tick float_repr input state)).
Proof.
  intro Hlimit. unfold run_tick. cbv zeta.
  destruct (get_active_stocks_for_session (tick_clock input)) as [ | s0 rest ];
    [ apply no_new_trades_refl | ].
  set (stocks := s0 :: rest).
  pose proof (range_pass_keeps_trades (tick_clock input) (tick_today input)
                (tick_now input) (tick_range_feed input) stocks state)
    as (Hact & Hstats & Hmax).
  destruct (range_pass _ _ _ _ stocks state) as [bot1 last] eqn:Hpass.
  cbn [fst] in *.
  assert (H1 : no_new_trades (fst state) bot1).
  { split; [ exact Hmax | ]. split; [ rewrite Hstats; reflexivity | ].
    rewrite Hact. intros k t' H. exists t'.
    split; [ exact H | apply progressed_refl ]. }
  set (bot2 := match active_trades bot1 with
               | [] => bot1
               | _ :: _ =>
                   monitor_active_trades bot1 (tick_monitor_feed input)
                     (tick_now input)
               end).
  assert (H2 : no_new_trades bot1 bot2).
  { subst bot2. destruct (active_trades bot1) eqn:Htable;
      [ apply no_new_trades_refl | ].
    apply no_new_trades_evolves, evolves_monitor_active_trades;
      auto using progressed_refl, progressed_tp1, progressed_tp2,
        progressed_trail.
    apply progressed_trans. }
  assert (H12 : no_new_trades (fst state) bot2)
    by (eapply no_new_trades_trans; eassumption).
  assert (Hlimit2 : at_trade_limit bot2)
    by (eapply at_trade_limit_no_new_trades; eassumption).
  rewrite (scan_breakouts_at_limit (tick_clock input) (tick_view input)
             stocks bot2 Hlimit2).
  destruct (is_sweep_time (tick_clock input)); [ | exact H12 ].
  eapply no_new_trades_trans; [ exact H12 | ].
  apply no_new_trades_evolves, evolves_close_all_positions;
    auto using progressed_refl, progressed_tp1, progressed_tp2,
      progressed_trail.
  apply progressed_trans.
Qed.

(** Property X28.
    The count of the day's trades is never reset: once it has reached
    [max_trades_per_day], no later pass of the loop, on that day or on any
    other, opens a trade; the table only loses trades and the count and
    the limit stay as they are. *)
Theorem trade_limit_is_permanent
    (inputs : list TickInput) (state : Bot * option Z)
    (Hlimit : at_trade_limit (fst state)) :
  at_trade_limit (fst (run_ticks float_repr inputs state)) /\
  no_new_trades (fst state) (fst (run_ticks float_repr inputs state)).
Proof.
  unfold run_ticks. revert state Hlimit.
  induction inputs as [ | input inputs IH ]; intros state Hlimit; simpl.
  - split; [ exact Hlimit | apply no_new_trades_refl ].
  - pose proof (run_tick_at_limit input state Hlimit) as Hstep.
    assert (Hlimit' : at_trade_limit (fst (run_tick float_repr input state)))
      by (eapply at_trade_limit_no_new_trades; eassumption).
    destruct (IH _ Hlimit') as [Hfinal Hrest].
    split; [ exact Hfinal | ].
    eapply no_new_trades_trans; eassumption.
Qed.

End LimitIsPermanent.

Lemma trade_limit_is_permanent_witness :
  at_trade_limit
    (fst (run_ticks (fun _ => "2.5"%string)
            [sample_tick 10.2; sample_tick 11.6] (sample_bot_at_limit, None))) /\
  no_new_trades sample_bot_at_limit
    (fst (run_ticks (fun _ => "2.5"%string)
            [sample_tick 10.2; sample_tick 11.6] (sample_bot_at_limit, None))).
Proof.
  apply (trade_limit_is_permanent (fun _ => "2.5"%string)
           [sample_tick 10.2; sample_tick 11.6] (sample_bot_at_limit, None)).
  unfold at_trade_limit. cbn. lia.
Defined.

(** ** Order of the partial exits *)

Lemma trail_stop_keeps (t : Trade) :
  tp1_hit (trail_stop t) = tp1_hit t /\
  tp2_hit (trail_stop t) = tp2_hit t /\
  position_size (trail_stop t) = position_size t.
Proof.
  unfold trail_stop.
  destruct (tp1_hit t && negb (tp2_hit t)); [ | repeat split ].
  destruct (direction t);
    match goal with
    | |- context [ if ?c then _ else _ ] => destruct c
    end; repeat split.
Qed.

Lemma lookup_after_update_and_trail
    (bot : Bot) (k : string) (t : Trade) (f : Trade -> Trade) :
  lookup k (active_trades bot) = Some t ->
  lookup k
    (active_trades
       (trail_stop_object
          (set_active bot (update_key k f (active_trades bot))) k))
  = Some (trail_stop (f t)).
Proof.
  intro Hk. unfold trail_stop_object.
  cbn [set_active set_trades active_trades].
  rewrite lookup_update_key_eq, Hk. cbn [option_map].
  cbn [set_active set_trades active_trades].
  rewrite !lookup_update_key_eq, Hk. reflexivity.
Qed.

Lemma hit_take_profit_value (bot : Bot) (k : string) (t : Trade) :
  lookup k (active_trades bot) = Some t ->
  outcome_value (hit_take_profit bot k 1)
  = set_active bot
      (update_key k (fun x => set_tp1 x (int_mul_half (position_size x)))
         (active_trades bot)) /\
  outcome_value (hit_take_profit bot k 2)
  = set_active bot
      (update_key k (fun x => set_tp2 x (int_mul_quarter (position_size x)))
         (active_trades bot)).
Proof.
  intro Hk. unfold hit_take_profit. rewrite Hk. cbn [Z.eqb Pos.eqb].
  destruct (bot_class bot); rewrite ?outcome_value_returned_if;
    split; reflexivity.
Qed.

(** Property X29.
    For a trade whose second target lies at or beyond its first, the
    second partial exit is only taken after the first: an iteration that
    sets [tp2_hit] found [tp1_hit] set by an earlier one, and leaves a
    quarter of the size it found. *)
Theorem second_target_needs_first
    (feed : Feed) (now : string) (bot : Bot) (trade_id : string)
    (t t' : Trade)
    (Hactive : lookup trade_id (active_trades bot) = Some t)
    (Hordered : match direction t with
                | LONG => target1 t <= target2 t
                | SHORT => target2 t <= target1 t
                end)
    (Hfresh : tp2_hit t = false)
    (Hafter : lookup trade_id
                (active_trades (monitor_iteration feed now bot trade_id))
              = Some t')
    (Hset : tp2_hit t' = true) :
  tp1_hit t = true /\
  position_size t' = int_mul_quarter (position_size t).
Proof.
  unfold monitor_iteration in Hafter. rewrite Hactive in Hafter.
  destruct (current_price_of feed (symbol t)) as [price | ];
    [ | rewrite Hactive in Hafter; injection Hafter as <-; congruence ].
  destruct (close_trade_effect bot trade_id t price "Stop Loss Hit" now Hactive)
    as (Hstop & _).
  destruct (close_trade_effect bot trade_id t price "Target 3 Hit" now Hactive)
    as (Hthird & _).
  destruct (hit_take_profit_value bot trade_id t Hactive) as (Hv1 & Hv2).
  destruct (stop_hit t price).
  { rewrite Hstop, lookup_remove_key_eq in Hafter. discriminate. }
  unfold check_targets in Hafter.
  destruct (negb (tp1_hit t) && reached t price (target1 t)) eqn:Hc1.
  { rewrite Hv1, (lookup_after_update_and_trail bot trade_id t _ Hactive)
      in Hafter.
    injection Hafter as <-.
    destruct (trail_stop_keeps
                (set_tp1 t (int_mul_half (position_size t)))) as (_ & H2 & _).
    rewrite H2 in Hset. cbn in Hset. congruence. }
  destruct (negb (tp2_hit t) && reached t price (target2 t)) eqn:Hc2.
  { rewrite Hv2, (lookup_after_update_and_trail bot trade_id t _ Hactive)
      in Hafter.
    injection Hafter as <-.
    destruct (trail_stop_keeps
                (set_tp2 t (int_mul_quarter (position_size t))))
      as (_ & _ & Hsize).
    split; [ | rewrite Hsize; reflexivity ].
    apply andb_prop in Hc2. destruct Hc2 as [_ Hr2].
    destruct (tp1_hit t); [ reflexivity | ]. cbn [negb andb] in Hc1.
    exfalso. apply reached_iff in Hr2.
    assert (Hr1 : reached t price (target1 t) = true).
    { apply reached_iff. destruct (direction t); lra. }
    congruence. }
  destruct (reached t price (target3 t)).
  { unfold trail_stop_object in Hafter.
    rewrite Hthird, lookup_remove_key_eq in Hafter.
    cbn [set_history set_trades active_trades] in Hafter.
    rewrite Hthird, lookup_remove_key_eq in Hafter. discriminate. }
  unfold trail_stop_object in Hafter. rewrite Hactive in Hafter.
  cbn [set_active set_trades active_trades] in Hafter.
  rewrite lookup_update_key_eq, Hactive in Hafter. injection Hafter as <-.
  destruct (trail_stop_keeps t) as (_ & H2 & _). congruence.
Qed.

Lemma second_target_needs_first_witness :
  tp1_hit sample_halved_trade = true /\
  position_size
    (set_tp2 sample_halved_trade
       (int_mul_quarter (position_size sample_halved_trade)))
  = int_mul_quarter (position_size sample_halved_trade).
Proof.
  apply (second_target_needs_first (feed_at 12.2) "t3"
           (monitor_ticks (sample_entered EnhancedORB)
              [(feed_at 11.6, "t2"%string)])
           sample_trade_id sample_halved_trade
           (set_tp2 sample_halved_trade
              (int_mul_quarter (position_size sample_halved_trade)))).
  - reflexivity.
  - discriminate.
  - reflexivity.
  - reflexivity.
  - reflexivity.
Defined.

Lemma hit_take_profit_sizes_witness :
  option_map position_size
    (lookup sample_trade_id
       (active_trades
          (outcome_value
             (hit_take_profit (sample_entered BasicORB) sample_trade_id 1))))
  = Some (floor_mul (position_size (sample_open_trade BasicORB)) 0.5) /\
  option_map position_size
    (lookup sample_trade_id
       (active_trades
          (outcome_value
             (hit_take_profit (sample_entered BasicORB) sample_trade_id 2))))
  = Some (floor_mul (position_size (sample_open_trade BasicORB)) 0.25).
Proof.
  apply (hit_take_profit_sizes (sample_entered BasicORB) sample_trade_id
           (sample_open_trade BasicORB)).
  - reflexivity.
  - discriminate.
Defined.

(** ** The breakout check of the basic bot *)

(** Property X30.
    Where the enhanced engine proposes an entry at a target risk:reward
    of 2, the basic bot reports a breakout in the same direction with the
    same entry, stop and three targets. *)
Theorem basic_levels_match_enhanced_at_rr_2
    (float_repr : Q -> string) (ranges : RangeTable)
    (fetched : option (list Bar)) (ind : Indicators)
    (bias : Outcome BiasAnalysis) (sym : string)
    (current_price cur_volume : Q) (td : TradeData) (msg : string)
    (Hentry : enhanced_entry_conditions float_repr ranges fetched ind bias
                sym current_price cur_volume = (Some td, msg))
    (Hrr : td_target_rr td == 2) :
  exists bd text,
    check_breakout_conditions ranges sym current_price cur_volume
    = (Some bd, text) /\
    bd_direction bd = td_direction td /\
    bd_entry_price bd = td_entry_price td /\
    bd_stop_loss bd = td_stop_loss td /\
    bd_target1 bd == td_target1 td /\
    bd_target2 bd == td_target2 td /\
    bd_target3 bd = td_target3 td.
Proof.
  unfold enhanced_entry_conditions in Hentry.
  unfold check_breakout_conditions.
  destruct (get_stock_data fetched) as [data | ]; [ | discriminate ].
  destruct (get_market_condition ind) as [mc rr].
  destruct (lookup sym ranges) as [orb | ]; [ | discriminate ].
  cbv zeta.
  destruct (Qlt_bool (orh orb) current_price).
  - destruct (3 <=? _)%nat; [ | discriminate ].
    injection Hentry as <- _. cbn in Hrr |- *.
    eexists. eexists. split; [ reflexivity | ]. cbn.
    repeat split; rewrite ?Hrr; ring.
  - destruct (Qlt_bool current_price (orl orb)); [ | discriminate ].
    destruct (3 <=? _)%nat; [ | discriminate ].
    injection Hentry as <- _. cbn in Hrr |- *.
    eexists. eexists. split; [ reflexivity | ]. cbn.
    repeat split; rewrite ?Hrr; ring.
Qed.

Lemma basic_levels_match_enhanced_at_rr_2_witness :
  exists bd text,
    check_breakout_conditions sample_ranges_105 "MSFT" 106 1000
    = (Some bd, text) /\
    bd_direction bd = td_direction weak_market_proposal /\
    bd_entry_price bd = td_entry_price weak_market_proposal /\
    bd_stop_loss bd = td_stop_loss weak_market_proposal /\
    bd_target1 bd == td_target1 weak_market_proposal /\
    bd_target2 bd == td_target2 weak_market_proposal /\
    bd_target3 bd = td_target3 weak_market_proposal.
Proof.
  apply (basic_levels_match_enhanced_at_rr_2 (fun _ => "2.0"%string)
           sample_ranges_105 (Some surge_bars) weak_indicators sample_bias
           "MSFT" 106 1000 weak_market_proposal
           "Enhanced entry confirmed: WEAK market, 2.0:1 R:R").
  - reflexivity.
  - reflexivity.
Defined.
